(** * epub_to_md: a shallow embedding of the EPUB-to-Markdown converter

    The development follows [src/epub_to_md.py].

    - Python text is modelled as [string], the UTF-8 bytes of the text;
      paths are POSIX paths.
    - The insertion-ordered dictionaries [content_items] and [image_items]
      are association lists that keep the position of the first insertion
      of a key; an absent XML attribute is [None], also as a key.
      [image_map], which is only ever looked up, is a [gmap].
    - Exceptions and effects are explicit: a computation yields the trace
      of its effects on the file system and on the scheduler, and a value or
      the exception raised.  Writing to a file that was opened is assumed
      to succeed, and reading the output back yields what was written;
      what the script prints is left out.
    - The third-party parsers and printers (ElementTree, BeautifulSoup,
      html2text, pathlib) are the fields of the class [Libs]; everything
      the script itself computes, its three regular-expression passes
      included, is a Rocq function. *)

From Stdlib Require Import ZArith Lia Ascii.
From stdpp Require Import base option list strings gmap.

#[local] Set Warnings "-register-all".

(** ** [os.path] on a POSIX system *)

Module PosixPath.

Definition sep : ascii := "/"%char.
Definition extsep : ascii := "."%char.

(** [p.rfind(c)] for a one-character [c]: the index of the last
    occurrence, [-1] when there is none. *)
Fixpoint rfind (c : ascii) (p : string) : Z :=
  match p with
  | EmptyString => (-1)%Z
  | String a t =>
      let r := rfind c t in
      if (0 <=? r)%Z then (r + 1)%Z
      else if decide (a = c) then 0%Z else (-1)%Z
  end.

(** [p[n:]] and [p[:n]] for a non-negative [n]. *)
Fixpoint drop (n : nat) (p : string) : string :=
  match n, p with
  | S k, String _ t => drop k t
  | _, _ => p
  end.

Fixpoint take (n : nat) (p : string) : string :=
  match n, p with
  | S k, String a t => String a (take k t)
  | _, _ => EmptyString
  end.

Definition slice_from (i : Z) (p : string) : string := drop (Z.to_nat i) p.
Definition slice_to (i : Z) (p : string) : string := take (Z.to_nat i) p.
Definition slice (i j : Z) (p : string) : string :=
  slice_to (j - i) (slice_from i p).

Definition is_empty (p : string) : bool :=
  match p with EmptyString => true | _ => false end.

Definition startswith (c : ascii) (p : string) : bool :=
  match p with
  | String a _ => bool_decide (a = c)
  | EmptyString => false
  end.

Fixpoint endswith (c : ascii) (p : string) : bool :=
  match p with
  | EmptyString => false
  | String a EmptyString => bool_decide (a = c)
  | String _ t => endswith c t
  end.

(** [p == c * len(p)] *)
Fixpoint all_char (c : ascii) (p : string) : bool :=
  match p with
  | EmptyString => true
  | String a t => bool_decide (a = c) && all_char c t
  end.

(** [p.rstrip(c)] *)
Fixpoint rstrip (c : ascii) (p : string) : string :=
  match p with
  | EmptyString => EmptyString
  | String a t => if all_char c p then EmptyString else String a (rstrip c t)
  end.

(** [posixpath.basename] *)
Definition basename (p : string) : string :=
  let i := (rfind sep p + 1)%Z in
  slice_from i p.

(** [posixpath.dirname] *)
Definition dirname (p : string) : string :=
  let i := (rfind sep p + 1)%Z in
  let head := slice_to i p in
  if negb (is_empty head) && negb (all_char sep head)
  then rstrip sep head else head.

(** [posixpath.splitext] ([genericpath._splitext]): the extension starts
    at the last dot of the last path component, unless that component
    consists of leading dots only up to there. *)
Definition splitext (p : string) : string * string :=
  let sepIndex := rfind sep p in
  let dotIndex := rfind extsep p in
  if (sepIndex <? dotIndex)%Z
     && negb (all_char extsep (slice (sepIndex + 1) dotIndex p))
  then (slice_to dotIndex p, slice_from dotIndex p)
  else (p, EmptyString).

(** [posixpath.join(a, b)] on two strings. *)
Definition join (a b : string) : string :=
  if startswith sep b then b
  else if is_empty a || endswith sep a then a +:+ b
  else a +:+ "/" +:+ b.

End PosixPath.

(** ** Insertion-ordered dictionaries

    A Python [dict] iterates in insertion order, and assigning to a key
    that is already present replaces its value where it stands. *)

Module PyDict.
Section dict.
Context {K V : Type} `{EqDecision K}.

Fixpoint get (k : K) (d : list (K * V)) : option V :=
match d with
| [] => None
| (k', v) :: r => if decide (k' = k) then Some v else get k r
end.

(** [d[k] = v] *)
Fixpoint set (k : K) (v : V) (d : list (K * V)) : list (K * V) :=
match d with
| [] => [(k, v)]
| (k', v') :: r =>
  if decide (k' = k) then (k', v) :: r else (k', v') :: set k v r
end.

(** [k in d] *)
Definition contains (k : K) (d : list (K * V)) : bool :=
match get k d with Some _ => true | None => false end.

Definition keys (d : list (K * V)) : list K := d.*1.
End dict.
End PyDict.

(** ** [xml.etree.ElementTree] elements *)

Module ElementTree.

Inductive Element : Type :=
| Elem (tag : string) (attrib : list (string * string))
       (text : option string) (children : list Element).

Definition tag (e : Element) : string :=
  match e with Elem t _ _ _ => t end.
Definition attrib (e : Element) : list (string * string) :=
  match e with Elem _ a _ _ => a end.
Definition text (e : Element) : option string :=
  match e with Elem _ _ x _ => x end.
Definition children (e : Element) : list Element :=
  match e with Elem _ _ _ c => c end.

(** All proper descendants of an element, in document order. *)
Fixpoint descendants (e : Element) : list Element :=
  match e with
  | Elem _ _ _ cs => flat_map (fun c => c :: descendants c) cs
  end.

(** [e.findall('.//' + t)] and [e.find('.//' + t)], [t] a tag in
    Clark notation. *)
Definition findall (t : string) (e : Element) : list Element :=
  filter (fun d => tag d = t) (descendants e).

Definition find (t : string) (e : Element) : option Element :=
  head (findall t e).

(** [e.get(key)] *)
Definition get (key : string) (e : Element) : option string :=
  PyDict.get key (attrib e).

End ElementTree.

(** ** BeautifulSoup trees *)

Module Soup.

Inductive node : Type :=
| NavigableString (s : string)
| Tag (name : string) (attrs : list (string * string)) (contents : list node).

(** The nodes of a tree in document order, the tree's root first. *)
Fixpoint nodes (n : node) : list node :=
  match n with
  | NavigableString _ => [n]
  | Tag _ _ cs => n :: flat_map nodes cs
  end.

Definition is_tag (names : list string) (n : node) : bool :=
  match n with
  | Tag name _ _ => bool_decide (name ∈ names)
  | NavigableString _ => false
  end.

(** [soup.find_all(names)] *)
Definition find_all (names : list string) (soup : list node) : list node :=
  filter (fun n => is_tag names n = true) (flat_map nodes soup).

(** [tag.get(key)] *)
Definition get (key : string) (n : node) : option string :=
  match n with
  | Tag _ attrs _ => PyDict.get key attrs
  | NavigableString _ => None
  end.

(** *** Image references (lines 315-325) *)

(** The body of the loop over [soup.find_all('img')], on the attributes
    of one [img] element. *)
Definition rewrite_src (image_map : gmap string string)
    (attrs : list (string * string)) : list (string * string) :=
  match PyDict.get "src" attrs with
  | Some src =>
      if PosixPath.is_empty src then attrs
      else match image_map !! src with
           | Some target => PyDict.set "src" target attrs
           | None =>
               let img_name := PosixPath.basename src in
               match image_map !! img_name with
               | Some target => PyDict.set "src" target attrs
               | None => attrs
               end
           end
  | None => attrs
  end.

Fixpoint rewrite_images (image_map : gmap string string) (n : node) : node :=
  match n with
  | NavigableString _ => n
  | Tag name attrs cs =>
      Tag name
          (if decide (name = "img") then rewrite_src image_map attrs else attrs)
          (map (rewrite_images image_map) cs)
  end.

(** *** Heading separation (lines 328-333) *)

Definition headings : list string := ["h1"; "h2"; "h3"; "h4"; "h5"; "h6"].

(** [soup.new_tag('p')] with [.string] set to the empty string. *)
Definition new_p : node := Tag "p" [] [NavigableString EmptyString].

(** The loop [for i, heading in enumerate(soup.find_all(headings))]
    visits the headings in document order; [i] is the number of headings
    met before, and a heading with [i > 0] gets [new_p] as its left
    sibling.  [separate i n] is the replacement of [n] among its siblings
    and the number of headings met once [n] is left. *)
Fixpoint separate (i : nat) (n : node) : nat * list node :=
  match n with
  | NavigableString _ => (i, [n])
  | Tag name attrs cs =>
      let h := is_tag headings n in
      let inside :=
        (fix go (j : nat) (l : list node) : nat * list node :=
           match l with
           | [] => (j, [])
           | c :: r =>
               let (j1, c') := separate j c in
               let (j2, r') := go j1 r in
               (j2, c' ++ r')
           end) (if h then S i else i) cs in
      (inside.1,
       (if h && bool_decide (0 < i) then [new_p] else [])
         ++ [Tag name attrs inside.2])
  end.

Fixpoint separate_list (i : nat) (l : list node) : nat * list node :=
  match l with
  | [] => (i, [])
  | c :: r =>
      let (j1, c') := separate i c in
      let (j2, r') := separate_list j1 r in
      (j2, c' ++ r')
  end.

(** One document: [enumerate] starts at [0]. *)
Definition separate_headings (soup : list node) : list node :=
  (separate_list 0 soup).2.

End Soup.

(** ** The three [re.sub] passes of the post-processing (lines 341-347) *)

Module Re.

Definition LF : ascii := "010"%char.
Definition CR : ascii := "013"%char.
Definition NL : string := String LF EmptyString.

(** [re.sub] with a pattern that never matches the empty string: at each
    position the pattern is tried; a match is replaced and scanning
    resumes right after it, otherwise one character is copied.  [m s]
    is the match at the start of [s]: its length and its replacement.
    [skip] counts the characters of the current match still to be
    passed over. *)
Fixpoint sub_from (m : string -> option (nat * string)) (skip : nat)
    (s : string) : string :=
  match s with
  | EmptyString => EmptyString
  | String a t =>
      match skip with
      | S k => sub_from m k t
      | O =>
          match m s with
          | Some (len, repl) => repl +:+ sub_from m (pred len) t
          | None => String a (sub_from m 0 t)
          end
      end
  end.

Definition sub (m : string -> option (nat * string)) (s : string) : string :=
  sub_from m 0 s.

(** Length of the longest prefix of [s] made of characters satisfying [f]. *)
Fixpoint span_len (f : ascii -> bool) (s : string) : nat :=
  match s with
  | String a t => if f a then S (span_len f t) else 0
  | EmptyString => 0
  end.

Definition is_lf (a : ascii) : bool := bool_decide (a = LF).

(** The pattern [\n{3,}] (greedy) with replacement [\n\n]. *)
Definition blank_lines (s : string) : option (nat * string) :=
  let n := span_len is_lf s in
  if 3 <=? n then Some (n, NL +:+ NL) else None.

Definition collapse_blank_lines (s : string) : string := sub blank_lines s.

(** [s] without its prefix [p], when it has it. *)
Fixpoint strip_prefix (p s : string) : option string :=
  match p, s with
  | EmptyString, _ => Some s
  | String a p', String b s' =>
      if decide (a = b) then strip_prefix p' s' else None
  | String _ _, EmptyString => None
  end.

Definition not_rparen (a : ascii) : bool := negb (bool_decide (a = ")"%char)).

(** The pattern [!\[\]\(([^)]+)\)] with replacement [![图片](\1)]. *)
Definition bare_image (s : string) : option (nat * string) :=
  match strip_prefix "![](" s with
  | Some rest =>
      let n := span_len not_rparen rest in
      if (1 <=? n) && PosixPath.startswith ")"%char (PosixPath.drop n rest)
      then Some (4 + n + 1, "![图片](" +:+ PosixPath.take n rest +:+ ")")
      else None
  | None => None
  end.

Definition label_images (s : string) : string := sub bare_image s.

(** Byte length of the white-space character ([\s] on [str]: the
    characters with [str.isspace()]) that starts [s] in UTF-8, [0] when
    [s] starts with none. *)
Definition space_len (s : string) : nat :=
  match s with
  | EmptyString => 0
  | String a t =>
      let b0 := nat_of_ascii a in
      if ((9 <=? b0) && (b0 <=? 13)) || ((28 <=? b0) && (b0 <=? 32)) then 1
      else match t with
      | EmptyString => 0
      | String a1 t1 =>
          let b1 := nat_of_ascii a1 in
          if (b0 =? 194) && ((b1 =? 133) || (b1 =? 160)) then 2
          else match t1 with
          | EmptyString => 0
          | String a2 _ =>
              let b2 := nat_of_ascii a2 in
              if (b0 =? 225) && (b1 =? 154) && (b2 =? 128) then 3
              else if (b0 =? 226) && (b1 =? 128)
                      && (((128 <=? b2) && (b2 <=? 138))
                          || (b2 =? 168) || (b2 =? 169) || (b2 =? 175))
              then 3
              else if (b0 =? 226) && (b1 =? 129) && (b2 =? 159) then 3
              else if (b0 =? 227) && (b1 =? 128) && (b2 =? 128) then 3
              else 0
          end
      end
  end.

(** Byte length of the longest run of white space at the start of [s];
    [fuel] bounds the number of characters of the run. *)
Fixpoint spaces_len (fuel : nat) (s : string) : nat :=
  match fuel with
  | O => 0
  | S f =>
      match space_len s with
      | O => 0
      | n => n + spaces_len f (PosixPath.drop n s)
      end
  end.

(** The pattern [```\s+```] with the empty replacement. *)
Definition empty_fence (s : string) : option (nat * string) :=
  match strip_prefix "```" s with
  | Some rest =>
      let n := spaces_len (String.length rest) rest in
      match strip_prefix "```" (PosixPath.drop n rest) with
      | Some _ => if 1 <=? n then Some (3 + n + 3, EmptyString) else None
      | None => None
      end
  | None => None
  end.

Definition drop_empty_fences (s : string) : string := sub empty_fence s.

End Re.

(** ** Exceptions and file-system effects

    A computation yields the effects it performed on the file system and
    the scheduler, in order, and either a value or the exception that
    ended it.  Effects performed before an exception stay. *)

Inductive exn : Type :=
| KeyError | AttributeError | TypeError | ParseError | BadZipFile | RuntimeError
| OSError.

Inductive event : Type :=
| Mkdtemp (dir : string)
| Mkdir (dir : string)
| Open_w (path : string)
| Write (path data : string)
| Rmtree (dir : string)
| Create_task (product_code data_dir : string).

Definition M (A : Type) : Type := list event * (exn + A).

Definition raise {A} (e : exn) : M A := ([], inl e).
Definition emit (ev : event) : M unit := ([ev], inr tt).

#[global] Instance M_ret : MRet M := fun A a => ([], inr a).
#[global] Instance M_bind : MBind M := fun A B f m =>
  match m with
  | (l, inl e) => (l, inl e)
  | (l, inr a) => let (l', r) := f a in (l ++ l', r)
  end.

(** [try: m except Exception as e: handler e] *)
Definition try_except {A} (m : M A) (handler : exn -> M A) : M A :=
  match m with
  | (l, inl e) => let (l', r) := handler e in (l ++ l', r)
  | (l, inr a) => (l, inr a)
  end.

(** [for x in l: acc = body acc x] *)
Fixpoint for_each {A B} (body : B -> A -> M B) (acc : B) (l : list A) : M B :=
  match l with
  | [] => mret acc
  | x :: r => acc' ← body acc x; for_each body acc' r
  end.

(** [x is not None], for the attribute access that follows in the source. *)
Definition not_none {A} (x : option A) : M A :=
  match x with
  | Some a => mret a
  | None => raise AttributeError
  end.

(** ** Libraries and environment *)

Class Libs : Type := {
  (** [ET.fromstring]: [None] when the bytes are not well-formed XML. *)
  ET_fromstring : string -> option ElementTree.Element;
  (** [BeautifulSoup(bytes, 'html.parser')]: the top-level nodes. *)
  BeautifulSoup : string -> list Soup.node;
  (** [str(soup)] *)
  soup_str : list Soup.node -> string;
  (** [h2t.handle] with the options of lines 166-176. *)
  h2t_handle : string -> string;
  (** [str(Path(s))], [str(Path(s).parent)] and [str(Path(s) / t)]. *)
  Path : string -> string;
  Path_parent : string -> string;
  Path_div : string -> string -> string;
}.

Record Env : Type := {
  mkdtemp : string;        (** the directory [tempfile.mkdtemp()] returns *)
  getcwd : string;
  loop_running : bool;     (** is an asyncio event loop running? *)
  (** Does [open(path, 'w')] (or ['wb']) succeed?  It raises [OSError]
      when the directory of the path does not exist, when the path names a
      directory, when the name is too long, ... *)
  can_open : string -> bool;
  (** Does writing [data] to the file opened at [path] succeed? *)
  can_write : string -> string -> bool;
}.

(** The file at [epub_path]: absent, not a ZIP archive, or an archive
    with its named entries. *)
Inductive source : Type :=
| Missing
| Not_zip
| Zip (entries : gmap string string).

Definition OPF : string := "{http://www.idpf.org/2007/opf}".
Definition DC : string := "{http://purl.org/dc/elements/1.1/}".
Definition OCF : string := "{urn:oasis:names:tc:opendocument:xmlns:container}".

(** [str(x)] inside an f-string, for an attribute that may be [None]. *)
Definition py_str (x : option string) : string := default "None" x.

(** ['\n'.join(l)] *)
Fixpoint join_lines (l : list string) : string :=
  match l with
  | [] => EmptyString
  | [x] => x
  | x :: r => x +:+ Re.NL +:+ join_lines r
  end.

(** What [f.read()] returns for a file with the text [s] that was opened
    in text mode: universal newlines turn a carriage return, and a carriage
    return followed by a line feed, into one line feed.  [after_cr] tells
    that the character before was a carriage return. *)
Fixpoint read_text_from (after_cr : bool) (s : string) : string :=
  match s with
  | EmptyString => EmptyString
  | String a t =>
      if bool_decide (a = Re.CR) then String Re.LF (read_text_from true t)
      else if bool_decide (a = Re.LF) && after_cr then read_text_from false t
      else String a (read_text_from false t)
  end.

Definition read_text (s : string) : string := read_text_from false s.

Section Pipeline.
Context `{Libs}.
Variable env : Env.

Definition zip_open (src : source) : M (gmap string string) :=
  match src with
  | Zip entries => mret entries
  | _ => raise BadZipFile
  end.

(** [epub.read(name)]; a name that is [None] is no entry either. *)
Definition epub_read (epub : gmap string string) (name : option string) : M string :=
  match name with
  | Some n => match epub !! n with
              | Some data => mret data
              | None => raise KeyError
              end
  | None => raise KeyError
  end.

Definition fromstring (data : string) : M ElementTree.Element :=
  match ET_fromstring data with
  | Some root => mret root
  | None => raise ParseError
  end.

(** [os.path.join(a, b)] where [b] may be [None]. *)
Definition os_path_join (a : string) (b : option string) : M string :=
  match b with
  | Some b => mret (PosixPath.join a b)
  | None => raise TypeError
  end.

(** Lines 182-193: the package descriptor and its directory. *)
Definition read_package (epub : gmap string string) : M (string * ElementTree.Element) :=
  container ← epub_read epub (Some "META-INF/container.xml");
  container_root ← fromstring container;
  rootfile ← not_none (ElementTree.find (OCF +:+ "rootfile") container_root);
  match ElementTree.get "full-path" rootfile with
  | None => raise KeyError          (* [epub.read(None)] *)
  | Some opf_path =>
      opf_content ← epub_read epub (Some opf_path);
      opf_root ← fromstring opf_content;
      let opf_dir := PosixPath.dirname opf_path in
      let opf_dir :=
        if negb (PosixPath.is_empty opf_dir)
           && negb (PosixPath.endswith "/"%char opf_dir)
        then opf_dir +:+ "/" else opf_dir in
      mret (opf_dir, opf_root)
  end.

(** Lines 200-210: the text of the first [t] element of the metadata
    section, the empty string when there is none or it has no text. *)
Definition metadata_text (opf_root : ElementTree.Element) (t : string) : string :=
  match ElementTree.find (OPF +:+ "metadata") opf_root with
  | Some metadata =>
      match ElementTree.find (DC +:+ t) metadata with
      | Some elem =>
          match ElementTree.text elem with
          | Some x => if PosixPath.is_empty x then EmptyString else x
          | None => EmptyString
          end
      | None => EmptyString
      end
  | None => EmptyString
  end.

(** Lines 213-215 *)
Definition spine_itemrefs (opf_root : ElementTree.Element) : list (option string) :=
  match ElementTree.find (OPF +:+ "spine") opf_root with
  | Some spine =>
      map (ElementTree.get "idref") (ElementTree.findall (OPF +:+ "itemref") spine)
  | None => []
  end.

Definition is_content_type (media_type : string) : bool :=
  bool_decide (media_type ∈ ["application/xhtml+xml"; "text/html"]).

Definition is_image_type (media_type : string) : bool :=
  String.prefix "image/" media_type.

Definition items : Type :=
  list (option string * option string) * list (option string * option string).

(** Lines 222-229: one [item] element.  A missing [media-type] is not in
    the list of content types, and [None.startswith] raises. *)
Definition collect_item (acc : items) (item : ElementTree.Element) : M items :=
  let (content_items, image_items) := acc in
  let item_id := ElementTree.get "id" item in
  let href := ElementTree.get "href" item in
  match ElementTree.get "media-type" item with
  | Some media_type =>
      if is_content_type media_type
      then mret (PyDict.set item_id href content_items, image_items)
      else if is_image_type media_type
      then mret (content_items, PyDict.set item_id href image_items)
      else mret (content_items, image_items)
  | None => raise AttributeError
  end.

(** Lines 218-229 *)
Definition collect_items (manifest : option ElementTree.Element) : M items :=
  manifest ← not_none manifest;
  for_each collect_item ([], []) (ElementTree.findall (OPF +:+ "item") manifest).

(** Lines 239-241: [f"{image_id}{ext}"] *)
Definition new_image_name (image_id : option string) (image_href : string) : string :=
  let ext := (PosixPath.splitext image_href).2 in
  py_str image_id +:+ ext.

(** Line 249: [f"{md_img_dir}/{new_image_name}"] *)
Definition md_image_path (md_img_dir : string) (image_id : option string)
    (image_href : string) : string :=
  md_img_dir +:+ "/" +:+ new_image_name image_id image_href.

(** [open(path, 'w')] or [open(path, 'wb')]: the file is created or
    truncated, or the call raises. *)
Definition open_w (path : string) : M unit :=
  if can_open env path then emit (Open_w path) else raise OSError.

(** [f.write(data)] on the file opened at [path].  A write that raises
    records no effect; what it leaves in the file is not known. *)
Definition write (path data : string) : M unit :=
  if can_write env path data then emit (Write path data) else raise OSError.

(** Lines 235-257: one image.  The target file is opened (created or
    truncated) before the archive entry is read; an item without [href]
    makes [os.path.join] raise.  Whatever is raised, by the path, by
    [open], by the archive or by the write, ends this image only, and the
    rename map gets no entry for it. *)
Definition save_image (epub : gmap string string) (opf_dir image_dir md_img_dir : string)
    (image_map : gmap string string) (it : option string * option string)
    : M (gmap string string) :=
  let (image_id, image_href) := it in
  try_except
    (match image_href with
     | None => raise TypeError
     | Some image_href =>
         let image_path := PosixPath.join opf_dir image_href in
         let save_path := PosixPath.join image_dir (new_image_name image_id image_href) in
         open_w save_path;;
         data ← epub_read epub (Some image_path);
         write save_path data;;
         let md_image_path := md_image_path md_img_dir image_id image_href in
         mret (<[image_href := md_image_path]>
                 (<[PosixPath.basename image_href := md_image_path]> image_map))
     end)
    (fun _ => mret image_map).

(** Lines 232-257 *)
Definition save_images (epub : gmap string string) (opf_dir image_dir md_img_dir : string)
    (image_items : list (option string * option string)) : M (gmap string string) :=
  for_each (save_image epub opf_dir image_dir md_img_dir) ∅ image_items.

(** Lines 260-266 *)
Definition header (title author : string) : list string :=
  (if PosixPath.is_empty title then [] else ["# " +:+ title +:+ Re.NL])
  ++ (if PosixPath.is_empty author then [] else ["**作者：" +:+ author +:+ "**" +:+ Re.NL]).

(** Lines 341-347 *)
Definition post_process (md_content : string) : string :=
  Re.drop_empty_fences (Re.label_images (Re.collapse_blank_lines md_content)).

(** Lines 312-347: from the bytes of a content document to its fragment. *)
Definition convert_document (image_map : gmap string string)
    (file_content : string) : string :=
  let soup := BeautifulSoup file_content in
  let soup := map (Soup.rewrite_images image_map) soup in
  let soup := Soup.separate_headings soup in
  let html_content := soup_str soup in
  let md_content := h2t_handle html_content in
  post_process md_content.

(** Lines 305-354 *)
Definition convert_html_to_markdown (epub : gmap string string) (opf_dir : string)
    (file_path : option string) (markdown_content : list string)
    (image_map : gmap string string) : M (list string) :=
  try_except
    (full_path ← os_path_join opf_dir file_path;
     file_content ← epub_read epub (Some full_path);
     mret (markdown_content ++ [convert_document image_map file_content]))
    (fun _ => mret markdown_content).

(** Lines 269-277 *)
Definition convert_all (epub : gmap string string) (opf_dir : string)
    (itemrefs : list (option string))
    (content_items : list (option string * option string))
    (image_map : gmap string string) (markdown_content : list string)
    : M (list string) :=
  match itemrefs with
  | _ :: _ =>
      for_each (fun markdown_content idref =>
          match PyDict.get idref content_items with
          | Some file_path =>
              convert_html_to_markdown epub opf_dir file_path markdown_content image_map
          | None => mret markdown_content
          end) markdown_content itemrefs
  | [] =>
      for_each (fun markdown_content it =>
          convert_html_to_markdown epub opf_dir it.2 markdown_content image_map)
        markdown_content content_items
  end.

Section run.
Variables (product_code : string) (save : bool).

(** Lines 137-144 *)
Definition temp_dir : string := Path (mkdtemp env).
Definition output_path : string :=
  if save
  then Path ("./data/" +:+ product_code +:+ "/epub/" +:+ product_code +:+ ".epub.md")
  else Path_div temp_dir (product_code +:+ ".epub.md").
Definition image_dir : string :=
  if save
  then Path ("./data/" +:+ product_code +:+ "/images/")
  else Path_div temp_dir "images".

(** Lines 137-148 *)
Definition prepare : list event :=
  (if save then [] else [Mkdtemp temp_dir])
  ++ [Mkdir (Path_parent output_path); Mkdir image_dir].

(** Lines 151-152 *)
Definition image_base (md_img_dir : option string) : string :=
  match md_img_dir with
  | Some d => if PosixPath.is_empty d
              then "/books/" +:+ product_code +:+ "/images" else d
  | None => "/books/" +:+ product_code +:+ "/images"
  end.

(** Lines 280-299: the text is written, read back in text mode, and
    what was read is returned; the scratch directory is removed, or the
    upload task is created, which needs a running event loop. *)
Definition deliver (markdown_content : list string) : M string :=
  open_w output_path;;
  write output_path (join_lines markdown_content);;
  let markdown_text := read_text (join_lines markdown_content) in
  (if save then mret tt else emit (Rmtree temp_dir));;
  (if save
   then if loop_running env
        then emit (Create_task product_code (PosixPath.join (getcwd env) "data"))
        else raise RuntimeError
   else mret tt);;
  mret markdown_text.

(** Lines 180-299: the body of the [try] block. *)
Definition extract_body (src : source) (md_img_dir : string) : M string :=
  epub ← zip_open src;
  '(opf_dir, opf_root) ← read_package epub;
  let manifest := ElementTree.find (OPF +:+ "manifest") opf_root in
  let title := metadata_text opf_root "title" in
  let author := metadata_text opf_root "creator" in
  let itemrefs := spine_itemrefs opf_root in
  '(content_items, image_items) ← collect_items manifest;
  image_map ← save_images epub opf_dir image_dir md_img_dir image_items;
  let markdown_content := header title author in
  markdown_content ←
    convert_all epub opf_dir itemrefs content_items image_map markdown_content;
  deliver markdown_content.

(** Lines 120-303 *)
Definition extract_content_from_epub (src : source) (md_img_dir : option string)
    : list event * option string :=
  match src with
  | Missing => (prepare, None)
  | _ =>
      let (effects, r) := extract_body src (image_base md_img_dir) in
      (prepare ++ effects,
       match r with
       | inr markdown_text => Some markdown_text
       | inl _ => None
       end)
  end.
End run.
End Pipeline.

(** * Views of the model used to state its properties *)

Section text_views.
Import Re.

(** No run of three or more line feeds starts anywhere in [s]. *)
Fixpoint calm (s : string) : Prop :=
  match s with
  | EmptyString => True
  | String _ t => span_len is_lf s < 3 ∧ calm t
  end.

(** [c in s] *)
Fixpoint has_char (c : ascii) (s : string) : bool :=
  match s with
  | EmptyString => false
  | String a t => bool_decide (a = c) || has_char c t
  end.

End text_views.

Section soup_views.
Import Soup PosixPath.

(** The reference an [img] ends with according to the specification: the
    rename map at the literal [src], else at the basename of [src], else
    [src] itself. *)
Definition rewritten_reference (image_map : gmap string string) (src : string) : string :=
  match image_map !! src with
  | Some target => target
  | None =>
      match image_map !! basename src with
      | Some target => target
      | None => src
      end
  end.



(** A tree as the sequence of its opening tags, texts and closing tags. *)
Inductive token : Type :=
| Open (name : string) (attrs : list (string * string))
| Text (s : string)
| Close (name : string).

(** The tokens of a tree in document order. *)
Fixpoint tokens (n : node) : list token :=
  match n with
  | NavigableString s => [Text s]
  | Tag name attrs cs => Open name attrs :: flat_map tokens cs ++ [Close name]
  end.

Definition soup_tokens (soup : list node) : list token := flat_map tokens soup.

(** The opening tag of an [h1], ..., [h6] element. *)
Definition opens_heading (t : token) : bool :=
  match t with
  | Open name _ => bool_decide (name ∈ headings)
  | _ => false
  end.

(** The number of heading elements opened in a token sequence. *)
Fixpoint headings_in (ts : list token) : nat :=
  match ts with
  | [] => 0
  | t :: r => (if opens_heading t then 1 else 0) + headings_in r
  end.

(** The specification's separation on a token sequence in which [i]
    headings came before: the empty block goes immediately before every
    heading but the very first. *)
Fixpoint separated (i : nat) (ts : list token) : list token :=
  match ts with
  | [] => []
  | t :: r =>
      if opens_heading t
      then (if bool_decide (0 < i) then tokens new_p else []) ++ t :: separated (S i) r
      else t :: separated i r
  end.

(** The converter is called once per content document (lines 270-277),
    and each call separates the headings of its own tree. *)
Definition separate_corpus (docs : list (list node)) : list (list node) :=
  map separate_headings docs.

End soup_views.

Section dict_views.
Context {K V : Type} `{EqDecision K}.
Implicit Types (d kvs : list (K * V)).

(** [for k, v in kvs: d[k] = v] *)
Definition PyDict_update d kvs : list (K * V) :=
  foldl (λ d kv, PyDict.set kv.1 kv.2 d) d kvs.

(** The elements of [l] in the order of their first occurrences. *)
Fixpoint first_occurrences (l : list K) : list K :=
  match l with
  | [] => []
  | k :: r => k :: filter (λ k', k' ≠ k) (first_occurrences r)
  end.

End dict_views.

Section manifest_views.
Import ElementTree.
Implicit Types (e manifest : Element) (its : list Element) (P : Element → bool).

(** The [item] elements of the manifest, in declaration order. *)
Definition manifest_items manifest : list Element := findall (OPF +:+ "item") manifest.

(** The identifier and the [href] of an [item] element. *)
Definition item_entry e : option string * option string := (get "id" e, get "href" e).

(** The branch of lines 226-229 an [item] element takes. *)
Definition is_content_item e : bool :=
  match get "media-type" e with
  | Some media_type => is_content_type media_type
  | None => false
  end.

Definition is_image_item e : bool :=
  match get "media-type" e with
  | Some media_type => negb (is_content_type media_type) && is_image_type media_type
  | None => false
  end.

Definition has_media_type e : bool :=
  match get "media-type" e with Some _ => true | None => false end.

(** The assignments the loop makes to [content_items] and to
    [image_items], in order. *)
Definition content_entries (its : list Element) : list (option string * option string) :=
  item_entry <$> filter (λ e, is_content_item e) its.

Definition image_entries (its : list Element) : list (option string * option string) :=
  item_entry <$> filter (λ e, is_image_item e) its.

(** The [href] of the last item of kind [P] declared with identifier [id]. *)
Definition declared_href P its (id : option string) : option (option string) :=
  last (get "href" <$> filter (λ e, P e ∧ get "id" e = id) its).

End manifest_views.

Section archive_views.
Context `{Libs}.
Variable env : Env.
Import PosixPath.
Implicit Types (epub image_map : gmap string string)
  (it : option string * option string)
  (its : list (option string * option string)).

(** The path at which the file of an image item is opened. *)
Definition save_path (image_dir : string) (it : option string * option string)
    (href : string) : string :=
  PosixPath.join image_dir (new_image_name it.1 href).

(** The file-system effects of one round of the loop over the images. *)
Definition image_effects epub (opf_dir image_dir : string)
    (it : option string * option string) : list event :=
  match it.2 with
  | None => []
  | Some href =>
      if can_open env (save_path image_dir it href)
      then Open_w (save_path image_dir it href) ::
             match epub !! PosixPath.join opf_dir href with
             | Some data =>
                 if can_write env (save_path image_dir it href) data
                 then [Write (save_path image_dir it href) data] else []
             | None => []
             end
      else []
  end.

(** The [href] and the data of an image item that is extracted: the item
    has an [href], its file can be opened, the archive has the entry, and
    the data can be written. *)
Definition image_data epub (opf_dir image_dir : string)
    (it : option string * option string) : option (string * string) :=
  href ← it.2;
  if can_open env (save_path image_dir it href)
  then data ← epub !! PosixPath.join opf_dir href;
       if can_write env (save_path image_dir it href) data
       then Some (href, data) else None
  else None.

(** The rename map after one round of the loop over the images. *)
Definition image_step epub (opf_dir image_dir md_img_dir : string) image_map
    (it : option string * option string) : gmap string string :=
  match image_data epub opf_dir image_dir it with
  | Some (href, _) =>
      <[href := md_image_path md_img_dir it.1 href]>
        (<[PosixPath.basename href := md_image_path md_img_dir it.1 href]> image_map)
  | None => image_map
  end.

(** The fragment of a content document, when the item has an [href] and
    the archive has the entry. *)
Definition fragment_of epub (opf_dir : string) image_map
    (file_path : option string) : option string :=
  href ← file_path;
  convert_document image_map <$> epub !! PosixPath.join opf_dir href.

(** The documents handed to the converter, in order (lines 269-277). *)
Definition documents (itemrefs : list (option string))
    (content_items : list (option string * option string)) : list (option string) :=
  match itemrefs with
  | [] => content_items.*2
  | _ => omap (λ idref, PyDict.get idref content_items) itemrefs
  end.

(** Every entry of [image_map] was recorded for one of the items [its]
    that were extracted. *)
Definition recorded_from epub (opf_dir image_dir md_img_dir : string) its image_map : Prop :=
  ∀ key path, image_map !! key = Some path →
    ∃ it href data,
      it ∈ its ∧ image_data epub opf_dir image_dir it = Some (href, data)
      ∧ (key = href ∨ key = basename href)
      ∧ path = md_img_dir +:+ "/" +:+ py_str it.1 +:+ (splitext href).2.

(** The text assembled (lines 232-277) from a package descriptor whose
    manifest gave [content_items] and [image_items]: the header and the
    fragments, joined. *)
Definition assembled epub (opf_dir : string) (opf_root : ElementTree.Element)
    (image_dir md_img_dir : string)
    (content_items image_items : list (option string * option string)) : string :=
  let image_map := foldl (image_step epub opf_dir image_dir md_img_dir) ∅ image_items in
  join_lines
    (header (metadata_text opf_root "title") (metadata_text opf_root "creator")
     ++ omap (fragment_of epub opf_dir image_map)
          (documents (spine_itemrefs opf_root) content_items)).

(** The effects of the delivery of a text. *)
Definition delivery (product_code : string) (save : bool) (text : string) : list event :=
  let path := output_path env product_code save in
  if can_open env path
  then Open_w path ::
         (if can_write env path text
          then Write path text ::
                 (if save
                  then if loop_running env
                       then [Create_task product_code (PosixPath.join (getcwd env) "data")]
                       else []
                  else [Rmtree (temp_dir env)])
          else [])
  else [].

(** The effects that create or change a file. *)
Definition writes_file (ev : event) : bool :=
  match ev with
  | Open_w _ | Write _ _ => true
  | _ => false
  end.

End archive_views.

(** ** A small concrete instance of the libraries, for examples *)

Module Demo.

Definition quote : string := String (ascii_of_nat 34) EmptyString.

(** A plain serialisation of a tree, standing for [str(soup)]. *)
Fixpoint attrs_str (attrs : list (string * string)) : string :=
  match attrs with
  | [] => EmptyString
  | (k, v) :: r => " " +:+ k +:+ "=" +:+ quote +:+ v +:+ quote +:+ attrs_str r
  end.

Fixpoint node_str (n : Soup.node) : string :=
  match n with
  | Soup.NavigableString s => s
  | Soup.Tag name attrs cs =>
      "<" +:+ name +:+ attrs_str attrs +:+ ">"
      +:+ fold_right (fun c acc => node_str c +:+ acc) EmptyString cs
      +:+ "</" +:+ name +:+ ">"
  end.

(** The parsers are tables from the bytes of an entry to its tree;
    html2text is the identity; paths are not normalised. *)
Definition libs (xml : list (string * ElementTree.Element))
    (html : list (string * list Soup.node)) : Libs := {|
  ET_fromstring data := PyDict.get data xml;
  BeautifulSoup data := default [Soup.NavigableString data] (PyDict.get data html);
  soup_str soup := fold_right (fun c acc => node_str c +:+ acc) EmptyString soup;
  h2t_handle html_content := html_content;
  Path p := p;
  Path_parent p := PosixPath.dirname p;
  Path_div p q := PosixPath.join p q;
|}.

(** A disk on which a file can be made under any name but the empty
    name, [.] and [..], which name directories, and written in full. *)
Definition opens (path : string) : bool :=
  negb (bool_decide (PosixPath.basename path ∈ [EmptyString; "."; ".."])).

Definition env : Env :=
  {| mkdtemp := "/tmp/tmpq"; getcwd := "/srv"; loop_running := true;
     can_open := opens; can_write := fun _ _ => true |}.


Definition container : ElementTree.Element :=
  ElementTree.Elem (OCF +:+ "container") [] None
    [ElementTree.Elem (OCF +:+ "rootfiles") [] None
       [ElementTree.Elem (OCF +:+ "rootfile") [("full-path", "OEBPS/content.opf")] None []]].

Definition item (id href media_type : string) : ElementTree.Element :=
  ElementTree.Elem (OPF +:+ "item")
    [("id", id); ("href", href); ("media-type", media_type)] None [].

Definition itemref (idref : string) : ElementTree.Element :=
  ElementTree.Elem (OPF +:+ "itemref") [("idref", idref)] None [].

Definition package (metadata manifest spine : list ElementTree.Element)
    : ElementTree.Element :=
  ElementTree.Elem (OPF +:+ "package") [] None
    [ElementTree.Elem (OPF +:+ "metadata") [] None metadata;
     ElementTree.Elem (OPF +:+ "manifest") [] None manifest;
     ElementTree.Elem (OPF +:+ "spine") [] None spine].

Definition h1 (s : string) : Soup.node := Soup.Tag "h1" [] [Soup.NavigableString s].
Definition img (src : string) : Soup.node := Soup.Tag "img" [("src", src)] [].

(** A book with two chapters and two images that share a basename. *)
Definition book_opf : ElementTree.Element :=
  package
    [ElementTree.Elem (DC +:+ "title") [] (Some "T") [];
     ElementTree.Elem (DC +:+ "creator") [] (Some "A") []]
    [item "c1" "one.xhtml" "application/xhtml+xml";
     item "c2" "two.xhtml" "application/xhtml+xml";
     item "i1" "a/pic.png" "image/png";
     item "i2" "b/pic.png" "image/png";
     item "css" "s.css" "text/css"]
    [itemref "c2"; itemref "c1"; itemref "nope"].

Definition book_libs : Libs :=
  libs [("CONTAINER", container); ("OPF", book_opf)]
       [("ONE", [h1 "One"; img "a/pic.png"; h1 "Uno"]);
        ("TWO", [h1 "Two"; img "b/pic.png"])].

Definition book : gmap string string :=
  list_to_map
    [("META-INF/container.xml", "CONTAINER"); ("OEBPS/content.opf", "OPF");
     ("OEBPS/one.xhtml", "ONE"); ("OEBPS/two.xhtml", "TWO");
     ("OEBPS/a/pic.png", "PNG-A"); ("OEBPS/b/pic.png", "PNG-B")].

(** The same book read by a parser that takes every content document for
    one text node. *)
Definition plain_libs : Libs :=
  libs [("CONTAINER", container); ("OPF", book_opf)] [].

(** The same book with an [item] that has no [media-type]. *)
Definition untyped_item : ElementTree.Element :=
  ElementTree.Elem (OPF +:+ "item") [("id", "x"); ("href", "x.bin")] None [].

Definition untyped_opf : ElementTree.Element :=
  package []
    [item "c1" "one.xhtml" "application/xhtml+xml"; untyped_item;
     item "c2" "two.xhtml" "application/xhtml+xml"]
    [].

Definition untyped_libs : Libs :=
  libs [("CONTAINER", container); ("OPF", untyped_opf)] [].

(** A manifest that declares the identifier [a] twice. *)
Definition twice_opf : ElementTree.Element :=
  package []
    [item "a" "x.xhtml" "application/xhtml+xml";
     item "b" "y.xhtml" "text/html";
     item "a" "z.xhtml" "application/xhtml+xml"]
    [].

Definition manifest_of (opf_root : ElementTree.Element) : ElementTree.Element :=
  default opf_root (ElementTree.find (OPF +:+ "manifest") opf_root).



Definition album : gmap string string :=
  list_to_map
    [("META-INF/container.xml", "CONTAINER"); ("OEBPS/content.opf", "OPF");
     ("OEBPS/one.xhtml", "ONE"); ("OEBPS/b/dot.png", "PNG-DOT")].

End Demo.

(** * Further views *)

Section more_views.
Import Re.

(** [s] without its line feeds. *)
Fixpoint without_lf (s : string) : string :=
  match s with
  | EmptyString => EmptyString
  | String a t => if is_lf a then without_lf t else String a (without_lf t)
  end.

(** Three line feeds in a row. *)
Definition three_lf : string := NL +:+ NL +:+ NL.

End more_views.

Module DemoMore.

(** A book whose spine names an identifier that is no content document. *)
Definition ghost_opf : ElementTree.Element :=
  Demo.package
    [ElementTree.Elem (DC +:+ "title") [] (Some "T") []]
    [Demo.item "c1" "one.xhtml" "application/xhtml+xml"]
    [Demo.itemref "cover"].

Definition ghost_libs : Libs :=
  Demo.libs [("CONTAINER", Demo.container); ("OPF", ghost_opf)] [].

(** A disk on which the output document of the product [p] cannot be
    written: the write raises. *)
Definition crowded_env : Env :=
  {| mkdtemp := "/tmp/tmpq"; getcwd := "/srv"; loop_running := true;
     can_open := Demo.opens;
     can_write := fun path _ => negb (bool_decide (path = "/tmp/tmpq/p.epub.md")) |}.

End DemoMore.

(** * The callers of the conversion (lines 356-468) *)

(** Effects of the callers: those of the conversion, and the temporary
    file that holds an uploaded or downloaded archive. *)
Inductive shell_event : Type :=
| Core (ev : event)
| Temp_file (path : string)          (** [NamedTemporaryFile(delete=False, suffix='.epub')] *)
| Temp_write (path data : string)
| Unlink (path : string).

(** What [requests.get(url, stream=True)], [raise_for_status] and
    [iter_content] do for a URL: one of the three raises (the last one
    after some chunks), or the body arrives in chunks. *)
Inductive download : Type :=
| Get_raises
| Status_raises
| Stream_raises (chunks : list string)
| Body (chunks : list string).

Record World : Type := {
  named_temp : string;                               (** the temporary file's name *)
  unzip : string -> option (gmap string string);     (** the entries of a ZIP archive, from its bytes *)
  at_path : string -> source;                        (** what a local path holds *)
  file_bytes : string -> option string;              (** [open(path, 'rb').read()], [None] when it raises *)
  http_get : string -> download;
}.

(** How [main] ends: it returns, calls [sys.exit(code)], or lets an
    exception escape. *)
Inductive status : Type :=
| Done
| Exit (code : nat)
| Uncaught.

Record Args : Type := {
  args_src : option string;
  args_file : option string;
  args_product_code : string;
  args_md_img_dir : option string;
  args_save : bool;
}.

(** Truth value of an optional string: [None] and the empty string are
    false. *)
Definition truthy (x : option string) : bool :=
  match x with
  | Some s => negb (PosixPath.is_empty s)
  | None => false
  end.

Section Shell.
Context `{Libs}.
Variables (env : Env) (world : World).

(** The archive file written from [data]. *)
Definition source_of_bytes (data : string) : source :=
  match unzip world data with
  | Some entries => Zip entries
  | None => Not_zip
  end.

(** Lines 356-380.  [extract_content_from_epub] catches every exception,
    so the [finally] clause runs after it returns. *)
Definition process_epub_file (file_content product_code : string)
    (md_img_dir : option string) (save : bool) : list shell_event * option string :=
  let temp_file_path := named_temp world in
  let result :=
    extract_content_from_epub env product_code save (source_of_bytes file_content)
      md_img_dir in
  ([Temp_file temp_file_path; Temp_write temp_file_path file_content]
   ++ (Core <$> result.1) ++ [Unlink temp_file_path],
   result.2).

(** Lines 382-415 *)
Definition process_epub_url (url product_code : string)
    (md_img_dir : option string) (save : bool) : list shell_event * option string :=
  let temp_file_path := named_temp world in
  match http_get world url with
  | Get_raises | Status_raises => ([], None)
  | Stream_raises chunks =>
      (Temp_file temp_file_path :: (Temp_write temp_file_path <$> chunks), None)
  | Body chunks =>
      let result :=
        extract_content_from_epub env product_code save
          (source_of_bytes (fold_right String.append EmptyString chunks)) md_img_dir in
      (Temp_file temp_file_path :: (Temp_write temp_file_path <$> chunks)
       ++ (Core <$> result.1) ++ [Unlink temp_file_path],
       result.2)
  end.

(** Lines 459-465: [if result: ... else: sys.exit(1)] *)
Definition report (run : list shell_event * option string) : list shell_event * status :=
  (run.1, if truthy run.2 then Done else Exit 1).

(** Lines 417-465, from the parsed arguments on. *)
Definition main (args : Args) : list shell_event * status :=
  let product_code := args_product_code args in
  let md_img_dir := args_md_img_dir args in
  let save := args_save args in
  if negb (truthy (args_src args)) && negb (truthy (args_file args)) then ([], Exit 1)
  else if truthy (args_src args) then
    let src := default EmptyString (args_src args) in
    if String.prefix "http://" src || String.prefix "https://" src
    then report (process_epub_url src product_code md_img_dir save)
    else
      match at_path world src with
      | Missing => ([], Exit 1)
      | found =>
          let result := extract_content_from_epub env product_code save found md_img_dir in
          report (Core <$> result.1, result.2)
      end
  else
    match file_bytes world (default EmptyString (args_file args)) with
    | None => ([], Uncaught)
    | Some file_content =>
        report (process_epub_file file_content product_code md_img_dir save)
    end.

End Shell.

(** * The helpers of lines 28-65 *)

Module Helpers.
Import Re.

Section product_id.

(** [\d] on [str] matches every Unicode decimal digit: [digit_len s] is
    the byte length of the decimal digit that starts [s], [0] when none
    does. *)
Variable digit_len : string -> nat.

(** The byte length of [k] decimal digits at the start of [s]. *)
Fixpoint digits_len (k : nat) (s : string) : option nat :=
  match k with
  | O => Some 0
  | S k' =>
      let n := digit_len s in
      if n =? 0 then None
      else m ← digits_len k' (PosixPath.drop n s); Some (n + m)
  end.

(** Lines 28-41: [re.match(r'(\d{6}-\d{2})', filename)] and its group. *)
Definition get_product_id (filename : string) : option string :=
  n1 ← digits_len 6 filename;
  let rest := PosixPath.drop n1 filename in
  if PosixPath.startswith "-"%char rest then
    n2 ← digits_len 2 (PosixPath.drop 1 rest);
    Some (PosixPath.take (n1 + 1 + n2) filename)
  else None.

End product_id.

(** The decimal digits of ASCII. *)
Definition ascii_digit (a : ascii) : bool :=
  (48 <=? nat_of_ascii a) && (nat_of_ascii a <=? 57).

(** [f.readline()] on a text file opened with universal newlines: the
    text up to its first line end, which is read as a line feed. *)
Fixpoint readline (text : string) : string :=
  match text with
  | EmptyString => EmptyString
  | String a t =>
      if bool_decide (a = LF) || bool_decide (a = CR) then NL
      else String a (readline t)
  end.

(** [s.isspace()], also true of the empty string here. *)
Definition all_space (s : string) : bool :=
  spaces_len (String.length s) s =? String.length s.

Definition lstrip (s : string) : string :=
  PosixPath.drop (spaces_len (String.length s) s) s.

Fixpoint rstrip (s : string) : string :=
  match s with
  | EmptyString => EmptyString
  | String a t => if all_space s then EmptyString else String a (rstrip t)
  end.

(** [s.strip()] *)
Definition strip (s : string) : string := lstrip (rstrip s).

Definition is_hash (a : ascii) : bool := bool_decide (a = "#"%char).

(** [re.sub(r'^#+\s*', '', s)]: without [re.MULTILINE] the pattern can
    match at the start of [s] only. *)
Definition strip_heading (s : string) : string :=
  let n := span_len is_hash s in
  if 1 <=? n then lstrip (PosixPath.drop n s) else s.

Definition is_mark (a : ascii) : bool :=
  bool_decide (a = "`"%char) || bool_decide (a = "*"%char) || bool_decide (a = "_"%char).

(** The pattern [[`*_]] with the empty replacement. *)
Definition mark (s : string) : option (nat * string) :=
  match s with
  | String a _ => if is_mark a then Some (1, EmptyString) else None
  | EmptyString => None
  end.

(** Lines 54-61, on the text of the file. *)
Definition first_line_content (text : string) : option string :=
  let first_line := strip (readline text) in
  let content := strip_heading first_line in
  let content := sub mark content in
  if PosixPath.is_empty content then None else Some content.

(** Lines 43-65.  [text_at path] is the decoded text of the file, [None]
    when opening or decoding it raises. *)
Definition get_first_line_content (text_at : string -> option string)
    (markdown_path : string) : option string :=
  match text_at markdown_path with
  | Some text => first_line_content text
  | None => None
  end.

End Helpers.

Module DemoShell.

(** A book without metadata and without content documents. *)
Definition blank_opf : ElementTree.Element :=
  Demo.package [] [Demo.item "i2" "b/dot.png" "image/png"] [].

Definition blank_libs : Libs :=
  Demo.libs [("CONTAINER", Demo.container); ("OPF", blank_opf)] [].

(** A machine on which [book.epub] is the book of [Demo], uploads are
    that book too, and nothing can be downloaded in full. *)
Definition world : World := {|
  named_temp := "/tmp/up.epub";
  unzip data := if decide (data = "ZIP") then Some Demo.book else None;
  at_path path := if decide (path = "book.epub") then Zip Demo.book else Missing;
  file_bytes path := if decide (path = "upload.epub") then Some "ZIP" else None;
  http_get url :=
    if decide (url = "http://host/book.epub") then Stream_raises ["ZI"] else Get_raises;
|}.

Definition script_env : Env :=
  {| mkdtemp := "/tmp/tmpq"; getcwd := "/srv"; loop_running := false;
     can_open := Demo.opens; can_write := fun _ _ => true |}.

End DemoShell.

Module DemoHelpers.

(** A digit table that knows the ASCII digits only. *)
Definition digit_len (s : string) : nat :=
  match s with
  | String a _ => if Helpers.ascii_digit a then 1 else 0
  | EmptyString => 0
  end.

End DemoHelpers.

(** * The upload task (lines 67-118)

    The coroutine talks to the task manager, to the uploader and to the file
    system, one call after the other.  A run is the sequence of these calls;
    what each call answers (a truth value, or an exception) is given by an
    oracle that sees the calls made so far.  Log messages are left out, and
    so is cancellation, which is no [Exception]. *)

Module Upload.

Inductive task_status : Type := DOING | SUCCESS | FAIL.

Inductive call : Type :=
| Update_task_status (st : task_status)
| New_uploader                          (** [OSSUploader()] *)
| Path_exists (path : string)           (** [os.path.exists] *)
| Acquire_file_lock
| Wait_for_tasks_completion
| Upload_directory (path : string)
| Delete_local_files (path : string)
| Release_file_lock.

(** The answer to a call after the calls of the history: [None] when the
    call raises; the value of a call that returns nothing is not looked
    at. *)
Definition oracle : Type := list call -> call -> option bool.

Definition U (A : Type) : Type := list call -> list call * option A.

Definition ret {A} (a : A) : U A := fun h => (h, Some a).

Definition bind {A B} (m : U A) (f : A -> U B) : U B := fun h =>
  match m h with
  | (h', Some a) => f a h'
  | (h', None) => (h', None)
  end.

(** [try: m except Exception: handler] *)
Definition try_except {A} (m handler : U A) : U A := fun h =>
  match m h with
  | (h', None) => handler h'
  | done => done
  end.

(** [try: m finally: final]: an exception of [final] replaces the
    outcome of [m]. *)
Definition try_finally {A B} (m : U A) (final : U B) : U A := fun h =>
  match m h with
  | (h', r) =>
      match final h' with
      | (h'', Some _) => (h'', r)
      | (h'', None) => (h'', None)
      end
  end.

Section upload.
Variable answer : oracle.

Definition ask (c : call) : U bool := fun h => (h ++ [c], answer h c).

(** Lines 67-118 *)
Definition upload_to_oss (product_code data_dir : string) : U bool :=
  try_except
    (bind (ask (Update_task_status DOING)) (fun _ =>
     bind (ask New_uploader) (fun _ =>
     let product_dir := PosixPath.join data_dir product_code in
     bind (ask (Path_exists product_dir)) (fun found =>
     if negb found
     then bind (ask (Update_task_status FAIL)) (fun _ => ret false)
     else
       bind (ask Acquire_file_lock) (fun locked =>
       bind (if negb locked
             then bind (ask Wait_for_tasks_completion) (fun finished =>
                  if negb finished
                  then bind (ask (Update_task_status FAIL)) (fun _ => ret false)
                  else ret true)
             else ret true) (fun go_on =>
       if negb go_on then ret false
       else
         try_finally
           (bind (ask (Upload_directory product_dir)) (fun success =>
            if success
            then bind (ask (Delete_local_files product_dir)) (fun _ =>
                 bind (ask (Update_task_status SUCCESS)) (fun _ => ret success))
            else bind (ask (Update_task_status FAIL)) (fun _ => ret success)))
           (ask Release_file_lock)))))))
    (bind (ask (Update_task_status FAIL)) (fun _ => ret false)).

End upload.

(** The status written last in a run. *)
Definition last_status (trace : list call) : option task_status :=
  last (omap (fun c => match c with Update_task_status st => Some st | _ => None end) trace).

End Upload.

Module DemoUpload.
Import Upload.

(** No lock is obtained, the running tasks finish in time, and every
    other call goes well. *)
Definition unlocked : oracle := fun _ c =>
  match c with
  | Acquire_file_lock => Some false
  | _ => Some true
  end.

(** Every call goes well, except that the lock cannot be released. *)
Definition stuck_lock : oracle := fun _ c =>
  match c with
  | Release_file_lock => None
  | _ => Some true
  end.

(** The upload itself reports a failure. *)
Definition refused : oracle := fun _ c =>
  match c with
  | Upload_directory _ => Some false
  | _ => Some true
  end.

End DemoUpload.

(** * Properties *)

(** ** The model on small inputs *)

Example basename_ex : PosixPath.basename "a/b/pic.png" = "pic.png".
Proof. reflexivity. Qed.
Example dirname_ex : PosixPath.dirname "OEBPS/content.opf" = "OEBPS".
Proof. reflexivity. Qed.
Example dirname_ex2 : PosixPath.dirname "content.opf" = EmptyString.
Proof. reflexivity. Qed.
Example dirname_ex3 : PosixPath.dirname "//content.opf" = "//".
Proof. reflexivity. Qed.
Example splitext_ex : PosixPath.splitext "img/a.b.png" = ("img/a.b", ".png").
Proof. reflexivity. Qed.
Example splitext_ex2 : PosixPath.splitext "img/.hidden" = ("img/.hidden", EmptyString).
Proof. reflexivity. Qed.
Example splitext_ex3 : PosixPath.splitext "a.b/cover" = ("a.b/cover", EmptyString).
Proof. reflexivity. Qed.
Example splitext_ex4 : PosixPath.splitext "..a.png" = ("..a", ".png").
Proof. reflexivity. Qed.
Example join_ex : PosixPath.join "OEBPS/" "images/a.png" = "OEBPS/images/a.png".
Proof. reflexivity. Qed.
Example utf8_ex : String.length "图片" = 6.
Proof. reflexivity. Qed.

Example collapse_ex :
  Re.collapse_blank_lines ("a" +:+ Re.NL +:+ Re.NL +:+ Re.NL +:+ Re.NL +:+ "b" +:+ Re.NL +:+ Re.NL +:+ "c")
  = "a" +:+ Re.NL +:+ Re.NL +:+ "b" +:+ Re.NL +:+ Re.NL +:+ "c".
Proof. reflexivity. Qed.
Example label_ex :
  Re.label_images "x ![](a/b.png) ![]() ![alt](c) ![](d" = "x ![图片](a/b.png) ![]() ![alt](c) ![](d".
Proof. reflexivity. Qed.
Example fence_ex :
  Re.drop_empty_fences ("a``` " +:+ Re.NL +:+ "```b``````") = "ab``````".
Proof. reflexivity. Qed.

(** ** Blank-line normalisation *)

Section blank_lines.
Import Re PosixPath.

Lemma span_len_drop f s : span_len f (drop (span_len f s) s) = 0.
Proof.
  induction s as [|a t IH]; simpl; [done|].
  destruct (f a) eqn:E; simpl; [done|]. by rewrite E.
Qed.

Lemma blank_lines_Some s n r :
  blank_lines s = Some (n, r) → n = span_len is_lf s ∧ 3 ≤ n ∧ r = NL +:+ NL.
Proof.
  unfold blank_lines. destruct (3 <=? span_len is_lf s) eqn:E; [|done].
  intros [= <- <-]. apply Nat.leb_le in E. done.
Qed.

Lemma blank_lines_None s : blank_lines s = None → span_len is_lf s < 3.
Proof.
  unfold blank_lines. destruct (3 <=? span_len is_lf s) eqn:E; [done|].
  intros _. apply Nat.leb_gt in E. lia.
Qed.

Lemma drop_pred_span a t :
  3 ≤ span_len is_lf (String a t) →
  span_len is_lf (drop (Init.Nat.pred (span_len is_lf (String a t))) t) = 0.
Proof.
  intros Hn. pose proof (span_len_drop is_lf (String a t)) as Hd.
  destruct (span_len is_lf (String a t)) eqn:En; [lia|]. exact Hd.
Qed.

Lemma span_len_sub k s :
  span_len is_lf (sub_from blank_lines k s)
  = span_len is_lf (drop k s) `min` 2.
Proof.
  revert k; induction s as [|a t IH]; intros [|k]; try done;
    try (by cbn [sub_from drop]; apply IH).
  cbn [sub_from drop]. destruct (blank_lines (String a t)) as [[n r]|] eqn:E.
  - apply blank_lines_Some in E as (-> & Hn & ->).
    pose proof (drop_pred_span a t Hn) as Hd.
    set (n := span_len is_lf (String a t)) in *.
    change (span_len is_lf (String LF (String LF
      (sub_from blank_lines (Init.Nat.pred n) t))) = n `min` 2).
    cbn [span_len]. replace (is_lf LF) with true by done.
    rewrite IH, Hd. lia.
  - apply blank_lines_None in E. cbn [span_len] in *.
    destruct (is_lf a); [|done].
    rewrite (IH 0). change (drop 0 t) with t. lia.
Qed.

Lemma calm_sub k s : calm (sub_from blank_lines k s).
Proof.
  revert k; induction s as [|a t IH]; intros [|k]; try done;
    try (by cbn [sub_from]; apply IH).
  cbn [sub_from]. destruct (blank_lines (String a t)) as [[n r]|] eqn:E.
  - apply blank_lines_Some in E as (-> & Hn & ->).
    pose proof (drop_pred_span a t Hn) as Hd.
    set (n := span_len is_lf (String a t)) in *.
    change (calm (String LF (String LF (sub_from blank_lines (Init.Nat.pred n) t)))).
    cbn [calm span_len]. replace (is_lf LF) with true by done.
    rewrite span_len_sub, Hd. repeat split; try (simpl; lia). apply IH.
  - apply blank_lines_None in E. cbn [calm]. split; [|apply IH].
    cbn [span_len] in *. destruct (is_lf a); [|lia].
    rewrite span_len_sub. change (drop 0 t) with t. lia.
Qed.

Lemma sub_calm s : calm s → sub_from blank_lines 0 s = s.
Proof.
  induction s as [|a t IH]; [done|]. intros [Hs Ht]. cbn [sub_from].
  destruct (blank_lines (String a t)) as [[n r]|] eqn:E.
  - apply blank_lines_Some in E as (-> & Hn & _). lia.
  - by rewrite IH.
Qed.

(** C9. The blank-line pass [re.sub(r'\n{3,}', '\n\n', .)] of the
    post-processing is idempotent: applied to its own result it changes
    nothing. *)
Theorem collapse_blank_lines_idempotent (md_content : string) :
  collapse_blank_lines (collapse_blank_lines md_content)
  = collapse_blank_lines md_content.
Proof. unfold collapse_blank_lines, sub. apply sub_calm, calm_sub. Qed.

End blank_lines.

(** ** Content documents: image references and heading separation *)

Section soup_facts.
Import Soup PosixPath.

Lemma node_induction (P : node → Prop) :
  (∀ s, P (NavigableString s)) →
  (∀ name attrs cs, Forall P cs → P (Tag name attrs cs)) →
  ∀ n, P n.
Proof.
  intros Hs Ht. fix IH 1. intros [s|name attrs cs]; [apply Hs|].
  apply Ht. induction cs as [|c cs IHcs]; constructor; [apply IH | apply IHcs].
Qed.

Lemma PyDict_set_get_id {K V} `{EqDecision K} (k : K) (v : V) (d : list (K * V)) :
  PyDict.get k d = Some v → PyDict.set k v d = d.
Proof.
  induction d as [|[k' v'] d IH]; simpl; [done|].
  destruct (decide (k' = k)); [by intros [= ->]|]. intros Hd. by rewrite IH.
Qed.

Lemma PyDict_get_set {K V} `{EqDecision K} (k k' : K) (v : V) (d : list (K * V)) :
  PyDict.get k' (PyDict.set k v d) = if decide (k = k') then Some v else PyDict.get k' d.
Proof.
  induction d as [|[k0 v0] d IH]; simpl.
  - done.
  - destruct (decide (k0 = k)) as [->|Hne]; simpl.
    + by destruct (decide (k = k')).
    + rewrite IH. destruct (decide (k0 = k')) as [->|]; [|done].
      by destruct (decide (k = k')).
Qed.

Lemma rewrite_src_spec image_map attrs :
  rewrite_src image_map attrs
  = match PyDict.get "src" attrs with
    | Some src =>
        if is_empty src then attrs
        else PyDict.set "src" (rewritten_reference image_map src) attrs
    | None => attrs
    end.
Proof.
  unfold rewrite_src, rewritten_reference.
  destruct (PyDict.get "src" attrs) as [src|] eqn:E; [|done].
  destruct (is_empty src); [done|].
  destruct (image_map !! src); [done|].
  destruct (image_map !! basename src); [done|].
  by rewrite PyDict_set_get_id.
Qed.







End soup_facts.

(** *** Heading separation *)

Section heading_facts.
Import Soup.

Lemma separated_app i ts1 ts2 :
  separated i (ts1 ++ ts2) = separated i ts1 ++ separated (i + headings_in ts1) ts2.
Proof.
  revert i; induction ts1 as [|t r IH]; intros i; simpl.
  - by rewrite Nat.add_0_r.
  - destruct (opens_heading t); simpl; rewrite IH.
    + rewrite <- app_assoc. simpl.
      by replace (i + S (headings_in r)) with (S (i + headings_in r)) by lia.
    + done.
Qed.

Lemma headings_in_app ts1 ts2 :
  headings_in (ts1 ++ ts2) = headings_in ts1 + headings_in ts2.
Proof. induction ts1 as [|t r IH]; simpl; [done|]. rewrite IH. lia. Qed.

Lemma separate_Tag i name attrs cs :
  separate i (Tag name attrs cs)
  = let h := is_tag headings (Tag name attrs cs) in
    let inside := separate_list (if h then S i else i) cs in
    (inside.1,
     (if h && bool_decide (0 < i) then [new_p] else []) ++ [Tag name attrs inside.2]).
Proof. reflexivity. Qed.

Lemma separate_tokens n :
  ∀ i, soup_tokens (separate i n).2 = separated i (tokens n)
       ∧ (separate i n).1 = i + headings_in (tokens n).
Proof.
  induction n as [s|name attrs cs IH] using node_induction; intros i.
  { simpl. split; [done|lia]. }
  assert (∀ j, soup_tokens (separate_list j cs).2 = separated j (soup_tokens cs)
               ∧ (separate_list j cs).1 = j + headings_in (soup_tokens cs)) as Hcs.
  { induction IH as [|c cs Hc _ IHcs]; intros j; simpl.
    - split; [done|lia].
    - destruct (Hc j) as [Hc2 Hc1].
      destruct (separate j c) as [j1 c'] eqn:Ec. simpl in Hc1, Hc2. subst j1.
      destruct (IHcs (j + headings_in (tokens c))) as [Hr2 Hr1].
      destruct (separate_list (j + headings_in (tokens c)) cs) as [j2 r'] eqn:Er.
      simpl in Hr1, Hr2. subst j2. simpl. split.
      + unfold soup_tokens in *. rewrite flat_map_app, separated_app.
        by rewrite Hc2, Hr2.
      + unfold soup_tokens. rewrite headings_in_app. lia. }
  rewrite separate_Tag. cbn zeta.
  set (h := is_tag headings (Tag name attrs cs)).
  destruct (Hcs (if h then S i else i)) as [H2 H1].
  cbn [fst snd]. rewrite H1. unfold soup_tokens in *.
  rewrite flat_map_app. cbn [flat_map tokens]. rewrite app_nil_r, H2.
  cbn [separated opens_heading headings_in].
  change (bool_decide (name ∈ headings)) with h.
  rewrite headings_in_app. cbn [headings_in opens_heading].
  destruct h; cbn [andb].
  - rewrite separated_app. cbn [separated opens_heading]. split; [|lia].
    destruct (bool_decide (0 < i)); simpl; by rewrite ?app_nil_r.
  - rewrite separated_app. cbn [separated opens_heading]. split; [|lia]. done.
Qed.

Lemma separate_list_tokens soup i :
  soup_tokens (separate_list i soup).2 = separated i (soup_tokens soup).
Proof.
  revert i; induction soup as [|c cs IH]; intros i; simpl; [done|].
  destruct (separate_tokens c i) as [Hc2 Hc1].
  destruct (separate i c) as [j1 c'] eqn:Ec. simpl in Hc1, Hc2. subst j1.
  specialize (IH (i + headings_in (tokens c))).
  destruct (separate_list (i + headings_in (tokens c)) cs) as [j2 r'] eqn:Er.
  simpl in *. unfold soup_tokens in *.
  by rewrite flat_map_app, separated_app, Hc2, IH.
Qed.

(** C3, as the code has it. In every content document an empty block is
    inserted immediately before every heading element except the first
    heading of that document: the heading index starts at zero again for
    each document. *)
Theorem headings_separated_per_document (docs : list (list node)) :
  map soup_tokens (separate_corpus docs)
  = map (λ doc, separated 0 (soup_tokens doc)) docs.
Proof.
  unfold separate_corpus. rewrite map_map. apply map_ext. intros doc.
  apply separate_list_tokens.
Qed.

(** C3 as stated fails: with one heading in each of two documents, a
    count kept across the documents puts an empty block before the second
    document's heading, and the converter puts none.  So in the book of
    [Demo], converted in spine order, the first heading of the second
    chapter follows the first chapter without an empty block, while the
    second heading of that chapter has one. *)
Lemma headings_not_counted_globally :
  let docs := [[Demo.h1 "One"]; [Demo.h1 "Two"]] in
  concat (map soup_tokens (separate_corpus docs))
  ≠ separated 0 (concat (map soup_tokens docs))
  ∧ separate_corpus docs = docs
  ∧ omap (@fragment_of Demo.book_libs Demo.book "OEBPS/" ∅)
      [Some "two.xhtml"; Some "one.xhtml"]
    = [@soup_str Demo.book_libs [Demo.h1 "Two"; Demo.img "b/pic.png"];
       @soup_str Demo.book_libs
         [Demo.h1 "One"; Demo.img "a/pic.png"; new_p; Demo.h1 "Uno"]].
Proof.
  split; [discriminate|]. split; [reflexivity|]. vm_compute. reflexivity.
Qed.

End heading_facts.

(** ** The pipeline *)

Section monad_facts.

Lemma bind_ret {A B} (a : A) (f : A → M B) : mret a ≫= f = f a.
Proof. unfold mbind, mret, M_bind, M_ret. by destruct (f a). Qed.

Lemma bind_raise {A B} (e : exn) (f : A → M B) : raise e ≫= f = raise e.
Proof. done. Qed.

Lemma bind_run {A B} (c : M A) (f : A → M B) :
  c ≫= f = match c.2 with
            | inl e => (c.1, inl e)
            | inr a => (c.1 ++ (f a).1, (f a).2)
            end.
Proof.
  destruct c as [l [e|a]]; simpl; [done|].
  unfold mbind, M_bind. by destruct (f a).
Qed.

End monad_facts.

Section dict_facts.
Context {K V : Type} `{EqDecision K}.
Implicit Types (d : list (K * V)) (kvs : list (K * V)).



(** The value of a key is the one assigned last. *)
Lemma PyDict_get_update k d kvs :
  PyDict.get k (PyDict_update d kvs)
  = match last (filter (λ kv, kv.1 = k) kvs) with
    | Some kv => Some kv.2
    | None => PyDict.get k d
    end.
Proof.
  unfold PyDict_update.
  revert d; induction kvs as [|[k' v'] kvs IH]; intros d; simpl; [done|].
  rewrite IH, filter_cons. simpl.
  destruct (decide (k' = k)) as [->|Hne].
  - destruct (filter (λ kv, kv.1 = k) kvs) as [|kv l] eqn:E; simpl.
    + rewrite PyDict_get_set. by destruct (decide (k = k)).
    + destruct (last (kv :: l)) eqn:El; [done|]. by apply last_None in El.
  - destruct (last (filter (λ kv, kv.1 = k) kvs)); [done|].
    rewrite PyDict_get_set. by destruct (decide (k' = k)).
Qed.

End dict_facts.

Section pipeline_facts.
Context `{Libs} (env : Env).
Import ElementTree.
Implicit Types (epub image_map : gmap string string) (e manifest : Element).

(** *** The loop over the manifest *)

Lemma collect_item_run (acc : items) e :
  collect_item acc e
  = if has_media_type e
    then mret (if is_content_item e then PyDict.set (get "id" e) (get "href" e) acc.1 else acc.1,
               if is_image_item e then PyDict.set (get "id" e) (get "href" e) acc.2 else acc.2)
    else raise AttributeError.
Proof.
  destruct acc as [c i]. unfold collect_item, has_media_type, is_content_item, is_image_item.
  destruct (get "media-type" e) as [mt|]; [|done].
  destruct (is_content_type mt); [done|]. by destruct (is_image_type mt).
Qed.

Lemma collect_loop_run (acc : items) (its : list Element) :
  for_each collect_item acc its
  = if forallb has_media_type its
    then mret (PyDict_update acc.1 (content_entries its),
               PyDict_update acc.2 (image_entries its))
    else raise AttributeError.
Proof.
  unfold content_entries, image_entries.
  revert acc; induction its as [|e its IH]; intros [c i]; cbn [for_each forallb].
  - done.
  - rewrite collect_item_run. destruct (has_media_type e); cbn [andb]; [|done].
    rewrite bind_ret, IH. destruct (forallb has_media_type its); [|done].
    cbn [fst snd]. rewrite !filter_cons.
    destruct (is_content_item e), (is_image_item e); simpl; done.
Qed.

Lemma collect_items_run manifest :
  collect_items (Some manifest)
  = if forallb has_media_type (manifest_items manifest)
    then mret (PyDict_update [] (content_entries (manifest_items manifest)),
               PyDict_update [] (image_entries (manifest_items manifest)))
    else raise AttributeError.
Proof.
  unfold collect_items, not_none. rewrite bind_ret. apply collect_loop_run.
Qed.

(** *** The package descriptor *)

Lemma read_package_no_container epub :
  epub !! "META-INF/container.xml" = None → read_package epub = raise KeyError.
Proof. intros Hc. unfold read_package, epub_read. by rewrite Hc. Qed.

(** *** Images are saved one by one, and no failure leaves the loop *)

Lemma save_image_run epub opf_dir image_dir md_img_dir image_map it :
  save_image env epub opf_dir image_dir md_img_dir image_map it
  = (image_effects env epub opf_dir image_dir it,
     inr (image_step env epub opf_dir image_dir md_img_dir image_map it)).
Proof.
  destruct it as [image_id [href|]]; [|done].
  unfold save_image, image_effects, image_step, image_data, save_path, open_w, write,
    epub_read. simpl.
  destruct (can_open env _); [|done]. simpl.
  destruct (epub !! PosixPath.join opf_dir href) as [data|]; [|done]. simpl.
  by destruct (can_write env _ data).
Qed.

Lemma save_loop_run epub opf_dir image_dir md_img_dir image_map its :
  for_each (save_image env epub opf_dir image_dir md_img_dir) image_map its
  = (flat_map (image_effects env epub opf_dir image_dir) its,
     inr (foldl (image_step env epub opf_dir image_dir md_img_dir) image_map its)).
Proof.
  revert image_map; induction its as [|it its IH]; intros image_map;
    cbn [for_each flat_map foldl]; [done|].
  rewrite save_image_run, bind_run. cbn [fst snd]. by rewrite IH.
Qed.

Lemma save_images_run epub opf_dir image_dir md_img_dir its :
  save_images env epub opf_dir image_dir md_img_dir its
  = (flat_map (image_effects env epub opf_dir image_dir) its,
     inr (foldl (image_step env epub opf_dir image_dir md_img_dir) ∅ its)).
Proof. apply save_loop_run. Qed.

(** *** Content documents are converted one by one *)

Lemma convert_html_to_markdown_run epub opf_dir file_path markdown_content image_map :
  convert_html_to_markdown epub opf_dir file_path markdown_content image_map
  = mret (markdown_content ++ option_list (fragment_of epub opf_dir image_map file_path)).
Proof.
  unfold convert_html_to_markdown, fragment_of, os_path_join, epub_read.
  destruct file_path as [href|]; simpl; [|by rewrite app_nil_r].
  destruct (epub !! PosixPath.join opf_dir href); simpl; [done|by rewrite app_nil_r].
Qed.

Lemma convert_all_run epub opf_dir itemrefs content_items image_map markdown_content :
  convert_all epub opf_dir itemrefs content_items image_map markdown_content
  = mret (markdown_content
          ++ omap (fragment_of epub opf_dir image_map) (documents itemrefs content_items)).
Proof.
  unfold convert_all, documents. destruct itemrefs as [|r0 rs].
  - revert markdown_content.
    induction content_items as [|it its IH]; intros mc; cbn [for_each].
    + by rewrite app_nil_r.
    + rewrite convert_html_to_markdown_run, bind_ret, IH. csimpl.
      destruct (fragment_of epub opf_dir image_map it.2); simpl;
        by rewrite <- ?app_assoc, ?app_nil_r.
  - generalize (r0 :: rs) as refs. clear r0 rs. intros refs. revert markdown_content.
    induction refs as [|r refs IH]; intros mc; cbn [for_each].
    + by rewrite app_nil_r.
    + csimpl. destruct (PyDict.get r content_items) as [file_path|].
      * rewrite convert_html_to_markdown_run, bind_ret, IH. csimpl.
        destruct (fragment_of epub opf_dir image_map file_path); simpl;
          by rewrite <- ?app_assoc, ?app_nil_r.
      * by rewrite bind_ret, IH.
Qed.

(** *** Delivery *)

Lemma deliver_run product_code save markdown_content :
  let path := output_path env product_code save in
  let text := join_lines markdown_content in
  deliver env product_code save markdown_content
  = (delivery env product_code save text,
     if can_open env path && can_write env path text
     then if save && negb (loop_running env)
          then inl RuntimeError else inr (read_text text)
     else inl OSError).
Proof.
  cbn zeta. unfold deliver, delivery, open_w, write.
  destruct (can_open env _); [|done].
  destruct (can_write env _ _); [|done].
  by destruct save, (loop_running env).
Qed.

(** *** The whole body, once the package and the manifest are read *)

Lemma extract_body_run product_code save epub md_img_dir opf_dir opf_root content_items image_items :
  read_package epub = mret (opf_dir, opf_root) →
  collect_items (find (OPF +:+ "manifest") opf_root) = mret (content_items, image_items) →
  let image_dir := image_dir env product_code save in
  let image_map := foldl (image_step env epub opf_dir image_dir md_img_dir) ∅ image_items in
  let markdown_content :=
    header (metadata_text opf_root "title") (metadata_text opf_root "creator")
    ++ omap (fragment_of epub opf_dir image_map)
         (documents (spine_itemrefs opf_root) content_items) in
  extract_body env product_code save (Zip epub) md_img_dir
  = (flat_map (image_effects env epub opf_dir image_dir) image_items
     ++ (deliver env product_code save markdown_content).1,
     (deliver env product_code save markdown_content).2).
Proof.
  intros Hp Hc. unfold extract_body, zip_open.
  rewrite bind_ret, Hp, bind_ret, Hc, bind_ret, save_images_run.
  rewrite bind_run. cbn [fst snd].
  by rewrite convert_all_run, bind_ret.
Qed.

End pipeline_facts.

(** ** Failures that end the conversion *)

Section fatal.
Context `{Libs} (env : Env).
Import ElementTree.

Lemma prepare_writes_nothing product_code save :
  Forall (λ ev, writes_file ev = false) (prepare env product_code save).
Proof. unfold prepare. destruct save; repeat constructor. Qed.

Lemma extract_raises product_code save epub md_img_dir e :
  extract_body env product_code save (Zip epub) (image_base product_code md_img_dir)
    = raise e →
  extract_content_from_epub env product_code save (Zip epub) md_img_dir
    = (prepare env product_code save, None).
Proof.
  intros Hb. unfold extract_content_from_epub. rewrite Hb. simpl.
  by rewrite app_nil_r.
Qed.

(** C5. When the archive has no [META-INF/container.xml], reading it
    raises [KeyError] inside the [try] block, the caller gets [None], and
    no file has been opened or written: only the directories made before
    the archive is opened exist. *)
Theorem missing_container_fails (product_code : string) (save : bool)
    (epub : gmap string string) (md_img_dir : option string) :
  epub !! "META-INF/container.xml" = None →
  extract_body env product_code save (Zip epub) (image_base product_code md_img_dir)
    = raise KeyError
  ∧ extract_content_from_epub env product_code save (Zip epub) md_img_dir
    = (prepare env product_code save, None)
  ∧ Forall (λ ev, writes_file ev = false) (prepare env product_code save).
Proof.
  intros Hc.
  assert (extract_body env product_code save (Zip epub)
            (image_base product_code md_img_dir) = raise KeyError) as Hb.
  { unfold extract_body, zip_open.
    by rewrite bind_ret, (read_package_no_container epub Hc). }
  split; [done|]. split; [by eapply extract_raises|apply prepare_writes_nothing].
Qed.

Lemma forallb_has_media_type_false (its : list Element) e :
  e ∈ its → get "media-type" e = None → forallb has_media_type its = false.
Proof.
  intros Hin He. apply not_true_is_false. intros Hall.
  rewrite forallb_forall in Hall. apply list_elem_of_In, Hall in Hin.
  unfold has_media_type in Hin. by rewrite He in Hin.
Qed.

(** C10. When some [item] element of the manifest has no [media-type]
    attribute, the loop over the manifest raises [AttributeError]
    ([None.startswith]), which reaches the handler of the whole [try]
    block: the conversion returns [None], whatever the other entries are,
    before any image or text is written. *)
Theorem item_without_media_type_aborts (product_code : string) (save : bool)
    (epub : gmap string string) (md_img_dir : option string)
    (opf_dir : string) (opf_root manifest e : Element) :
  read_package epub = mret (opf_dir, opf_root) →
  find (OPF +:+ "manifest") opf_root = Some manifest →
  e ∈ manifest_items manifest →
  get "media-type" e = None →
  collect_items (Some manifest) = raise AttributeError
  ∧ extract_body env product_code save (Zip epub) (image_base product_code md_img_dir)
    = raise AttributeError
  ∧ extract_content_from_epub env product_code save (Zip epub) md_img_dir
    = (prepare env product_code save, None).
Proof.
  intros Hp Hm Hin He.
  assert (collect_items (Some manifest) = raise AttributeError) as Hc.
  { rewrite collect_items_run.
    by rewrite (forallb_has_media_type_false _ e Hin He). }
  assert (extract_body env product_code save (Zip epub)
            (image_base product_code md_img_dir) = raise AttributeError) as Hb.
  { unfold extract_body, zip_open. by rewrite bind_ret, Hp, bind_ret, Hm, Hc. }
  split; [done|]. split; [done|]. by eapply extract_raises.
Qed.

End fatal.

(** ** Assembly of the output *)

Section assembly.
Context `{Libs} (env : Env).
Import ElementTree.

Lemma header_spec title author :
  header title author
  = (if decide (title = EmptyString) then [] else ["# " +:+ title +:+ Re.NL])
    ++ (if decide (author = EmptyString) then []
        else ["**作者：" +:+ author +:+ "**" +:+ Re.NL]).
Proof. unfold header. by destruct title, author. Qed.

Lemma extract_run product_code save epub md_img_dir opf_dir opf_root
    content_items image_items :
  read_package epub = mret (opf_dir, opf_root) →
  collect_items (find (OPF +:+ "manifest") opf_root) = mret (content_items, image_items) →
  let image_dir := image_dir env product_code save in
  let path := output_path env product_code save in
  let image_map :=
    foldl (image_step env epub opf_dir image_dir (image_base product_code md_img_dir))
      ∅ image_items in
  let text :=
    join_lines
      (header (metadata_text opf_root "title") (metadata_text opf_root "creator")
       ++ omap (fragment_of epub opf_dir image_map)
            (documents (spine_itemrefs opf_root) content_items)) in
  extract_content_from_epub env product_code save (Zip epub) md_img_dir
  = (prepare env product_code save
     ++ flat_map (image_effects env epub opf_dir image_dir) image_items
     ++ delivery env product_code save text,
     if can_open env path && can_write env path text
     then if save && negb (loop_running env) then None else Some (read_text text)
     else None).
Proof.
  intros Hp Hc. unfold extract_content_from_epub.
  rewrite (extract_body_run env product_code save epub _ _ _ _ _ Hp Hc).
  cbn zeta. rewrite deliver_run. cbn [fst snd].
  destruct (can_open env _ && can_write env _ _); [|done].
  by destruct (save && negb (loop_running env)).
Qed.

Lemma extract_success product_code save epub md_img_dir opf_dir opf_root
    content_items image_items :
  read_package epub = mret (opf_dir, opf_root) →
  collect_items (find (OPF +:+ "manifest") opf_root) = mret (content_items, image_items) →
  (save = true → loop_running env = true) →
  let image_dir := image_dir env product_code save in
  let path := output_path env product_code save in
  let image_map :=
    foldl (image_step env epub opf_dir image_dir (image_base product_code md_img_dir))
      ∅ image_items in
  let text :=
    join_lines
      (header (metadata_text opf_root "title") (metadata_text opf_root "creator")
       ++ omap (fragment_of epub opf_dir image_map)
            (documents (spine_itemrefs opf_root) content_items)) in
  (extract_content_from_epub env product_code save (Zip epub) md_img_dir).2
  = if can_open env path && can_write env path text then Some (read_text text) else None.
Proof.
  intros Hp Hc Hloop. cbn zeta.
  rewrite (extract_run product_code save epub md_img_dir _ _ _ _ Hp Hc).
  cbn [snd]. destruct save; [rewrite Hloop by done|]; done.
Qed.

Lemma join_lines_concat (l : list string) :
  join_lines l = String.concat (String "010" EmptyString) l.
Proof.
  induction l as [|x [|y r] IH]; [done|done|].
  change (join_lines (x :: y :: r)) with (x +:+ Re.NL +:+ join_lines (y :: r)).
  by rewrite IH.
Qed.

Lemma read_text_no_cr s : has_char Re.CR s = false → read_text s = s.
Proof.
  unfold read_text. induction s as [|a t IH]; [done|].
  cbn [has_char read_text_from]. intros [Ha Ht]%orb_false_iff.
  rewrite Ha, andb_false_r. by rewrite IH.
Qed.

(** C8. Once the package descriptor and the manifest are read, the text
    assembled is the pieces joined by single line feeds, the pieces being a
    top-level heading with the title exactly when the title is not empty,
    then a bold author line exactly when the author is not empty, then the
    fragments.  With no [title] and no [creator] element in the metadata
    there is neither heading nor author line: the text is the fragments
    joined.  That text is what is written to the output path, when the
    file can be opened and written.  The value returned is the file read
    back in text mode, which is the same text unless it holds a carriage
    return (a persisting run without an event loop returns [None] after
    writing it). *)
Theorem output_is_header_then_fragments (product_code : string) (save : bool)
    (epub : gmap string string) (md_img_dir : option string) (opf_dir : string)
    (opf_root : Element)
    (content_items image_items : list (option string * option string)) :
  read_package epub = mret (opf_dir, opf_root) →
  collect_items (find (OPF +:+ "manifest") opf_root) = mret (content_items, image_items) →
  let title := metadata_text opf_root "title" in
  let author := metadata_text opf_root "creator" in
  let image_dir := image_dir env product_code save in
  let path := output_path env product_code save in
  let image_map :=
    foldl (image_step env epub opf_dir image_dir (image_base product_code md_img_dir))
      ∅ image_items in
  let fragments :=
    omap (fragment_of epub opf_dir image_map)
      (documents (spine_itemrefs opf_root) content_items) in
  let result := extract_content_from_epub env product_code save (Zip epub) md_img_dir in
  let line_feed := String "010" EmptyString in
  ∃ markdown_text,
    markdown_text
    = String.concat line_feed
        ((if decide (title = EmptyString) then [] else ["# " +:+ title +:+ line_feed])
         ++ (if decide (author = EmptyString) then []
             else ["**作者：" +:+ author +:+ "**" +:+ line_feed])
         ++ fragments)
    ∧ (can_open env path = true → can_write env path markdown_text = true →
       (Write path markdown_text) ∈ result.1)
    ∧ result.2
      = (if can_open env path && can_write env path markdown_text
         then if save && negb (loop_running env) then None
              else Some (read_text markdown_text)
         else None)
    ∧ (has_char "013" markdown_text = false → read_text markdown_text = markdown_text)
    ∧ ((∀ metadata, find (OPF +:+ "metadata") opf_root = Some metadata →
          find (DC +:+ "title") metadata = None
          ∧ find (DC +:+ "creator") metadata = None) →
       markdown_text = String.concat line_feed fragments).
Proof.
  intros Hp Hc. cbn zeta.
  rewrite (extract_run product_code save epub md_img_dir _ _ _ _ Hp Hc).
  cbn [fst snd]. rewrite header_spec, <- app_assoc, join_lines_concat.
  unfold Re.NL, Re.LF.
  eexists. split; [reflexivity|]. split; [|split; [done|split]].
  - intros Ho Hw. rewrite !elem_of_app. right; right.
    unfold delivery. rewrite Ho, Hw. right; left.
  - apply read_text_no_cr.
  - intros Hmeta. unfold metadata_text.
    destruct (find (OPF +:+ "metadata") opf_root) as [metadata|]; [|done].
    destruct (Hmeta metadata eq_refl) as [-> ->]. done.
Qed.

End assembly.

(** ** Order and duplicates in the dictionaries of manifest items *)

Section dict_order.
Context {K V : Type} `{EqDecision K}.
Implicit Types (d kvs : list (K * V)).

Lemma PyDict_keys_set k v d :
  PyDict.keys (PyDict.set k v d)
  = if decide (k ∈ PyDict.keys d) then PyDict.keys d else PyDict.keys d ++ [k].
Proof.
  unfold PyDict.keys. induction d as [|[k' v'] d IH]; csimpl.
  - destruct (decide (k ∈ [])) as [Hin|]; [by apply elem_of_nil in Hin|done].
  - destruct (decide (k' = k)) as [->|Hne]; csimpl.
    + destruct (decide (k ∈ k :: d.*1)) as [|Hn]; [done|].
      exfalso; apply Hn; left.
    + rewrite IH. destruct (decide (k ∈ d.*1)) as [Hin|Hn].
      * destruct (decide (k ∈ k' :: d.*1)) as [|Hn']; [done|].
        exfalso; apply Hn'; by right.
      * destruct (decide (k ∈ k' :: d.*1)) as [Hin'|]; [|done].
        apply elem_of_cons in Hin' as [->|?]; done.
Qed.

Lemma PyDict_keys_update d kvs :
  PyDict.keys (PyDict_update d kvs)
  = PyDict.keys d ++ filter (λ k, k ∉ PyDict.keys d) (first_occurrences kvs.*1).
Proof.
  unfold PyDict_update.
  revert d; induction kvs as [|[k v] kvs IH]; intros d; csimpl.
  - by rewrite app_nil_r.
  - rewrite IH, PyDict_keys_set, filter_cons.
    destruct (decide (k ∈ PyDict.keys d)) as [Hin|Hn].
    + rewrite decide_False by (intros Hn; by apply Hn).
      rewrite list_filter_filter_l; [done|]. intros x Hx ->. by apply Hx.
    + rewrite decide_True by done. rewrite <- app_assoc. simpl. do 2 f_equal.
      rewrite list_filter_filter. apply list_filter_iff. intros x.
      rewrite not_elem_of_app, list_elem_of_singleton. done.
Qed.


Lemma filter_True_id (l : list K) : filter (λ k, k ∉ @nil K) l = l.
Proof.
  induction l as [|x l IH]; [done|].
  rewrite filter_cons_True by apply not_elem_of_nil. by rewrite IH.
Qed.



Lemma PyDict_keys_update_nil kvs :
  PyDict.keys (PyDict_update [] kvs) = first_occurrences kvs.*1.
Proof.
  rewrite PyDict_keys_update. unfold PyDict.keys at 1 2. csimpl.
  apply filter_True_id.
Qed.


End dict_order.

Section manifest_facts.
Context `{Libs}.
Import ElementTree.
Implicit Types (its : list Element) (P : Element → bool).

Lemma filter_item_entry (id : option string) (l : list Element) :
  filter (λ kv, kv.1 = id) (item_entry <$> l)
  = item_entry <$> filter (λ e, get "id" e = id) l.
Proof.
  induction l as [|e l IH]; [done|]. csimpl. rewrite !filter_cons. simpl.
  destruct (decide (get "id" e = id)); csimpl; by rewrite IH.
Qed.

Lemma get_entries P its (id : option string) :
  PyDict.get id (PyDict_update [] (item_entry <$> filter (λ e, P e) its))
  = declared_href P its id.
Proof.
  rewrite PyDict_get_update, filter_item_entry, list_filter_filter.
  unfold declared_href. rewrite !fmap_last.
  assert (filter (λ e, get "id" e = id ∧ P e) its
          = filter (λ e, P e ∧ get "id" e = id) its) as ->.
  { apply list_filter_iff. intros e. by split; intros [? ?]. }
  by destruct (last _).
Qed.


(** C7, as the code has it. Two [item] elements with one identifier are
    not rejected: no error comes of them (the loop fails only on an item
    without [media-type]), and in each identifier-keyed mapping the [href]
    of the last item declared with an identifier is the one kept, while
    the identifier stays where it was first declared: the keys of each
    mapping are the identifiers of its kind in the order of their first
    occurrences. *)
Theorem duplicate_identifier_last_wins (manifest : Element) :
  forallb has_media_type (manifest_items manifest) = true →
  ∃ content_items image_items,
    collect_items (Some manifest) = mret (content_items, image_items)
    ∧ content_items.*1
      = first_occurrences
          (get "id" <$> filter (λ e, is_content_item e) (manifest_items manifest))
    ∧ image_items.*1
      = first_occurrences
          (get "id" <$> filter (λ e, is_image_item e) (manifest_items manifest))
    ∧ ∀ id : option string,
        PyDict.get id content_items
        = declared_href is_content_item (manifest_items manifest) id
        ∧ PyDict.get id image_items
          = declared_href is_image_item (manifest_items manifest) id.
Proof.
  intros Hall. rewrite collect_items_run, Hall. eexists _, _. split; [done|].
  unfold content_entries, image_entries.
  assert (∀ l : list Element, (item_entry <$> l).*1 = get "id" <$> l) as Hids.
  { intros l. by rewrite <- list_fmap_compose. }
  split; [|split].
  - rewrite <- Hids. apply (PyDict_keys_update_nil (item_entry <$> _)).
  - rewrite <- Hids. apply (PyDict_keys_update_nil (item_entry <$> _)).
  - intros id. by rewrite !get_entries.
Qed.

(** C7 as stated fails: with two content documents declared under the
    identifier [a], the loop succeeds and the mapping holds the second
    [href], not the first. *)
Lemma duplicate_identifier_not_rejected :
  let manifest :=
    Elem (OPF +:+ "manifest") [] None
      [Demo.item "a" "x.xhtml" "application/xhtml+xml";
       Demo.item "a" "y.xhtml" "application/xhtml+xml"] in
  ¬ (∃ e, (collect_items (Some manifest)).2 = inl e)
  ∧ ¬ (∃ content_items image_items,
         (collect_items (Some manifest)).2 = inr (content_items, image_items)
         ∧ PyDict.get (Some "a") content_items = Some (Some "x.xhtml"))
  ∧ collect_items (Some manifest) = mret ([(Some "a", Some "y.xhtml")], []).
Proof.
  cbn zeta. split; [|split]; [| |reflexivity].
  - intros [e He]. vm_compute in He. discriminate.
  - intros (c & i & Hc & Hget). vm_compute in Hc. injection Hc as <- <-.
    vm_compute in Hget. discriminate.
Qed.


End manifest_facts.

(** ** Paths and asset names *)

Section path_facts.
Import PosixPath.

Lemma append_String a s t : String a s +:+ t = String a (s +:+ t).
Proof. done. Qed.

Lemma append_Empty t : EmptyString +:+ t = t.
Proof. done. Qed.

Lemma length_append s t : String.length (s +:+ t) = String.length s + String.length t.
Proof. induction s as [|a s IH]; [done|]. rewrite append_String. simpl. by rewrite IH. Qed.

Lemma append_inj_len a b e1 e2 :
  String.length a = String.length b → a +:+ e1 = b +:+ e2 → a = b.
Proof.
  revert b; induction a as [|x a IH]; intros [|y b]; try done.
  rewrite !append_String. simpl. intros [= Hl] [= -> Hab]. f_equal. by apply IH.
Qed.

Lemma append_inj_r a b e : a +:+ e = b +:+ e → a = b.
Proof.
  intros Hab. apply (append_inj_len a b e e); [|done].
  apply (f_equal String.length) in Hab. rewrite !length_append in Hab. lia.
Qed.

Lemma rfind_lower c p : (-1 ≤ rfind c p)%Z.
Proof.
  induction p as [|a t IH]; simpl; [done|].
  destruct (0 <=? rfind c t)%Z eqn:E; [lia|]. by destruct (decide (a = c)).
Qed.

Lemma rfind_drop c p :
  (0 ≤ rfind c p)%Z → ∃ r, drop (Z.to_nat (rfind c p)) p = String c r.
Proof.
  induction p as [|a t IH]; simpl; [lia|].
  destruct (0 <=? rfind c t)%Z eqn:E.
  - apply Z.leb_le in E. intros _. destruct (IH E) as [r Hr].
    exists r. replace (Z.to_nat (rfind c t + 1)) with (S (Z.to_nat (rfind c t))) by lia.
    done.
  - destruct (decide (a = c)) as [->|]; [|lia]. intros _. by exists t.
Qed.

Lemma rfind_basename p : rfind sep (basename p) = (-1)%Z.
Proof.
  unfold basename, slice_from. induction p as [|a t IH]; [done|]. simpl.
  pose proof (rfind_lower sep t) as Hl.
  destruct (0 <=? rfind sep t)%Z eqn:E.
  - apply Z.leb_le in E.
    replace (Z.to_nat (rfind sep t + 1 + 1)) with (S (Z.to_nat (rfind sep t + 1))) by lia.
    exact IH.
  - apply Z.leb_gt in E. destruct (decide (a = sep)) as [->|Hne]; simpl.
    + lia.
    + destruct (0 <=? rfind sep t)%Z eqn:E'; [apply Z.leb_le in E'; lia|].
      by destruct (decide (a = sep)).
Qed.

Lemma basename_idempotent p : basename (basename p) = basename p.
Proof. unfold basename at 1. by rewrite rfind_basename. Qed.

(** An extension is empty or starts with a period. *)
Lemma splitext_ext p :
  (splitext p).2 = EmptyString ∨ ∃ r, (splitext p).2 = String extsep r.
Proof.
  unfold splitext.
  destruct ((rfind sep p <? rfind extsep p)%Z
            && negb (all_char extsep (slice (rfind sep p + 1) (rfind extsep p) p))) eqn:E;
    [|by left].
  right. apply andb_true_iff in E as [E _]. apply Z.ltb_lt in E.
  pose proof (rfind_lower sep p). apply rfind_drop. lia.
Qed.

(** A name without a period is recovered from the name followed by an
    extension. *)
Lemma stem_unique a b e1 e2 :
  has_char extsep a = false → has_char extsep b = false →
  (e1 = EmptyString ∨ ∃ r, e1 = String extsep r) →
  (e2 = EmptyString ∨ ∃ r, e2 = String extsep r) →
  a +:+ e1 = b +:+ e2 → a = b.
Proof.
  revert b; induction a as [|x a IH]; intros [|y b] Ha Hb He1 He2; try done.
  - rewrite append_Empty, append_String. simpl in Hb.
    apply orb_false_iff in Hb as [Hy _]. apply bool_decide_eq_false in Hy.
    destruct He1 as [->|[r ->]]; [done|]. by intros [= <- _].
  - rewrite append_Empty, append_String. simpl in Ha.
    apply orb_false_iff in Ha as [Hx _]. apply bool_decide_eq_false in Hx.
    destruct He2 as [->|[r ->]]; [done|]. by intros [= -> _].
  - rewrite !append_String. simpl in Ha, Hb.
    apply orb_false_iff in Ha as [_ Ha]. apply orb_false_iff in Hb as [_ Hb].
    intros [= -> Hab]. f_equal. by apply (IH b).
Qed.

End path_facts.

(** ** The rename map *)

Section rename_map.
Variable env : Env.
Import PosixPath.
Implicit Types (epub image_map : gmap string string)
  (it : option string * option string)
  (its : list (option string * option string)).

Lemma image_step_recorded epub opf_dir image_dir md_img_dir its its' image_map :
  recorded_from env epub opf_dir image_dir md_img_dir its image_map →
  recorded_from env epub opf_dir image_dir md_img_dir (its ++ its')
    (foldl (image_step env epub opf_dir image_dir md_img_dir) image_map its').
Proof.
  revert its image_map; induction its' as [|it its' IH]; intros its image_map Hm.
  - by rewrite app_nil_r.
  - cbn [foldl]. replace (its ++ it :: its') with ((its ++ [it]) ++ its')
      by by rewrite <- app_assoc.
    apply IH. intros key path. unfold image_step.
    destruct (image_data env epub opf_dir image_dir it) as [[href data]|] eqn:Ed.
    + rewrite !lookup_insert.
      destruct (decide (href = key)) as [<-|_];
        [|destruct (decide (basename href = key)) as [<-|_]].
      * intros [= <-]. exists it, href, data. rewrite elem_of_app, list_elem_of_singleton.
        eauto 10.
      * intros [= <-]. exists it, href, data. rewrite elem_of_app, list_elem_of_singleton.
        eauto 10.
      * intros Hk. destruct (Hm key path Hk) as (it0 & h0 & d0 & ? & ? & ? & ?).
        exists it0, h0, d0. rewrite elem_of_app. eauto 10.
    + intros Hk. destruct (Hm key path Hk) as (it0 & h0 & d0 & ? & ? & ? & ?).
      exists it0, h0, d0. rewrite elem_of_app. eauto 10.
Qed.

Lemma image_map_recorded epub opf_dir image_dir md_img_dir its :
  recorded_from env epub opf_dir image_dir md_img_dir its
    (foldl (image_step env epub opf_dir image_dir md_img_dir) ∅ its).
Proof.
  apply (image_step_recorded epub opf_dir image_dir md_img_dir [] its ∅).
  intros key path Hk. by rewrite lookup_empty in Hk.
Qed.

(** A key that no later image records keeps its value. *)
Lemma image_step_untouched epub opf_dir image_dir md_img_dir its image_map key :
  (∀ it href data, it ∈ its → image_data env epub opf_dir image_dir it = Some (href, data) →
     href ≠ key ∧ basename href ≠ key) →
  foldl (image_step env epub opf_dir image_dir md_img_dir) image_map its !! key = image_map !! key.
Proof.
  revert image_map; induction its as [|it its IH]; intros image_map Hits; [done|].
  cbn [foldl]. rewrite IH by (intros ? ? ? ?; apply Hits; by right).
  unfold image_step. destruct (image_data env epub opf_dir image_dir it) as [[href data]|] eqn:Ed; [|done].
  destruct (Hits it href data) as [? ?]; [left|done|].
  by rewrite !lookup_insert_ne.
Qed.

(** What does hold of the rename map and of the asset names.  An image
    whose archive entry is read is recorded, under its [href] and under
    the basename of its [href], with the reference
    [{base path}/{identifier}{extension of the href}], and the reference
    stays unless a later image records the same key; every entry of the
    final rename map is such a reference of an extracted image.  Two
    distinct identifiers give distinct asset file names whenever the two
    extensions are equal or neither identifier contains a period (two
    images may well share a basename). *)
Theorem image_references_and_names (epub : gmap string string)
    (opf_dir image_dir md_img_dir : string) (image_items : list (option string * option string)) :
  let step := image_step env epub opf_dir image_dir md_img_dir in
  let reference it href := md_img_dir +:+ "/" +:+ py_str it.1 +:+ (splitext href).2 in
  (∀ l1 it l2 href data,
     image_items = l1 ++ it :: l2 →
     image_data env epub opf_dir image_dir it = Some (href, data) →
     foldl step ∅ (l1 ++ [it]) !! href = Some (reference it href)
     ∧ foldl step ∅ (l1 ++ [it]) !! basename href = Some (reference it href)
     ∧ ∀ key, key = href ∨ key = basename href →
         (∀ it' href' data', it' ∈ l2 →
            image_data env epub opf_dir image_dir it' = Some (href', data') →
            href' ≠ key ∧ basename href' ≠ key) →
         foldl step ∅ image_items !! key = Some (reference it href))
  ∧ recorded_from env epub opf_dir image_dir md_img_dir image_items (foldl step ∅ image_items)
  ∧ (∀ id1 id2 href1 href2 : string,
       id1 ≠ id2 →
       (splitext href1).2 = (splitext href2).2
       ∨ (has_char extsep id1 = false ∧ has_char extsep id2 = false) →
       new_image_name (Some id1) href1 ≠ new_image_name (Some id2) href2).
Proof.
  cbn zeta. split; [|split].
  - intros l1 it l2 href data -> Hd.
    assert (foldl (image_step env epub opf_dir image_dir md_img_dir) ∅ (l1 ++ [it]) !! href
              = Some (md_img_dir +:+ "/" +:+ py_str it.1 +:+ (splitext href).2)
            ∧ foldl (image_step env epub opf_dir image_dir md_img_dir) ∅ (l1 ++ [it]) !! basename href
              = Some (md_img_dir +:+ "/" +:+ py_str it.1 +:+ (splitext href).2))
      as [Hh Hb].
    { rewrite foldl_app. cbn [foldl]. unfold image_step at 1 3. rewrite Hd.
      rewrite lookup_insert_eq, lookup_insert, lookup_insert_eq.
      by destruct (decide (href = basename href)). }
    split; [done|]. split; [done|].
    intros key Hkey Hlater.
    replace (l1 ++ it :: l2) with ((l1 ++ [it]) ++ l2) by by rewrite <- app_assoc.
    rewrite foldl_app, image_step_untouched by done.
    by destruct Hkey as [-> | ->].
  - apply image_map_recorded.
  - intros id1 id2 href1 href2 Hne Hcase Heq. apply Hne.
    unfold new_image_name, py_str in Heq. simpl in Heq.
    destruct Hcase as [He|[H1 H2]].
    + rewrite He in Heq. by apply append_inj_r in Heq.
    + by apply (stem_unique id1 id2 _ _ H1 H2 (splitext_ext href1) (splitext_ext href2)).
Qed.

(** C6. The asset name [{identifier}{extension}] is meant to be unique
    (line 240), and it is not: the identifiers [cover] and [cover.png],
    for the images [cover.png] and [images/cover], give the one name
    [cover.png], and the second image is written over the first. *)
Lemma asset_names_collide :
  let epub : gmap string string :=
    list_to_map [("OEBPS/cover.png", "PNG-1"); ("OEBPS/images/cover", "PNG-2")] in
  let image_items := [(Some "cover", Some "cover.png"); (Some "cover.png", Some "images/cover")] in
  Some "cover" ≠ Some "cover.png"
  ∧ new_image_name (Some "cover") "cover.png" = new_image_name (Some "cover.png") "images/cover"
  ∧ (save_images Demo.env epub "OEBPS/" "out/images" "/img" image_items).1
    = [Open_w "out/images/cover.png"; Write "out/images/cover.png" "PNG-1";
       Open_w "out/images/cover.png"; Write "out/images/cover.png" "PNG-2"].
Proof. cbn zeta. split; [done|]. split; vm_compute; reflexivity. Qed.

End rename_map.

(** ** One image missing from the archive *)

Section missing_image.
Context `{Libs} (env : Env).
Import ElementTree PosixPath.






End missing_image.


(** ** The theorems at concrete archives *)

Lemma missing_container_fails_witness :
  let epub := delete "META-INF/container.xml" Demo.book in
  epub !! "META-INF/container.xml" = None
  ∧ @extract_content_from_epub Demo.book_libs Demo.env "p" true (Zip epub) None
    = (@prepare Demo.book_libs Demo.env "p" true, None).
Proof.
  cbn zeta.
  assert (delete "META-INF/container.xml" Demo.book !! "META-INF/container.xml" = None)
    as Hc by (vm_compute; reflexivity).
  split; [exact Hc|].
  exact (proj1 (proj2 (@missing_container_fails Demo.book_libs Demo.env "p" true _ None Hc))).
Defined.

Lemma item_without_media_type_aborts_witness :
  let manifest := Demo.manifest_of Demo.untyped_opf in
  @read_package Demo.untyped_libs Demo.book = mret ("OEBPS/", Demo.untyped_opf)
  ∧ ElementTree.find (OPF +:+ "manifest") Demo.untyped_opf = Some manifest
  ∧ Demo.untyped_item ∈ manifest_items manifest
  ∧ ElementTree.get "media-type" Demo.untyped_item = None
  ∧ @extract_content_from_epub Demo.untyped_libs Demo.env "p" false (Zip Demo.book) None
    = (@prepare Demo.untyped_libs Demo.env "p" false, None).
Proof.
  cbn zeta.
  assert (@read_package Demo.untyped_libs Demo.book = mret ("OEBPS/", Demo.untyped_opf))
    as Hp by (vm_compute; reflexivity).
  assert (ElementTree.find (OPF +:+ "manifest") Demo.untyped_opf
          = Some (Demo.manifest_of Demo.untyped_opf)) as Hm by (vm_compute; reflexivity).
  assert (Demo.untyped_item ∈ manifest_items (Demo.manifest_of Demo.untyped_opf)) as Hin.
  { apply list_elem_of_In. vm_compute. right; left; reflexivity. }
  assert (ElementTree.get "media-type" Demo.untyped_item = None) as He
    by (vm_compute; reflexivity).
  split; [exact Hp|]. split; [exact Hm|]. split; [exact Hin|]. split; [exact He|].
  exact (proj2 (proj2 (@item_without_media_type_aborts Demo.untyped_libs Demo.env
                         "p" false Demo.book None _ _ _ _ Hp Hm Hin He))).
Defined.

Lemma output_is_header_then_fragments_witness :
  let content_items := [(Some "c1", Some "one.xhtml"); (Some "c2", Some "two.xhtml")] in
  let image_items := [(Some "i1", Some "a/pic.png"); (Some "i2", Some "b/pic.png")] in
  let nl := String "010" EmptyString in
  let text := "# T" +:+ nl +:+ nl +:+ "**作者：A**" +:+ nl +:+ nl +:+ "TWO" +:+ nl +:+ "ONE" in
  @read_package Demo.plain_libs Demo.book = mret ("OEBPS/", Demo.book_opf)
  ∧ collect_items (ElementTree.find (OPF +:+ "manifest") Demo.book_opf)
    = mret (content_items, image_items)
  ∧ (@extract_content_from_epub Demo.plain_libs Demo.env "p" false (Zip Demo.book) None).2
    = Some text
  ∧ (Write "/tmp/tmpq/p.epub.md" text)
      ∈ (@extract_content_from_epub Demo.plain_libs Demo.env "p" false (Zip Demo.book)
           None).1.
Proof.
  cbn zeta.
  assert (@read_package Demo.plain_libs Demo.book = mret ("OEBPS/", Demo.book_opf))
    as Hp by (vm_compute; reflexivity).
  assert (collect_items (ElementTree.find (OPF +:+ "manifest") Demo.book_opf)
          = mret ([(Some "c1", Some "one.xhtml"); (Some "c2", Some "two.xhtml")],
                  [(Some "i1", Some "a/pic.png"); (Some "i2", Some "b/pic.png")]))
    as Hc by (vm_compute; reflexivity).
  split; [exact Hp|]. split; [exact Hc|].
  destruct (@output_is_header_then_fragments Demo.plain_libs Demo.env "p" false
              Demo.book None _ _ _ _ Hp Hc) as (text & Htext & Hwrite & Hres & _).
  assert (text = "# T" +:+ String "010" EmptyString +:+ String "010" EmptyString
                 +:+ "**作者：A**" +:+ String "010" EmptyString +:+ String "010" EmptyString
                 +:+ "TWO" +:+ String "010" EmptyString +:+ "ONE") as Heq
    by (rewrite Htext; vm_compute; reflexivity).
  assert (@output_path Demo.plain_libs Demo.env "p" false = "/tmp/tmpq/p.epub.md")
    as Hpath by (vm_compute; reflexivity).
  rewrite Heq, Hpath in Hwrite. rewrite Heq, Hpath in Hres. split.
  - rewrite Hres. vm_compute. reflexivity.
  - apply Hwrite; vm_compute; reflexivity.
Defined.

Lemma duplicate_identifier_last_wins_witness :
  let manifest := Demo.manifest_of Demo.twice_opf in
  forallb has_media_type (manifest_items manifest) = true
  ∧ ∃ content_items image_items,
      collect_items (Some manifest) = mret (content_items, image_items)
      ∧ content_items.*1 = [Some "a"; Some "b"]
      ∧ PyDict.get (Some "a") content_items = Some (Some "z.xhtml")
      ∧ PyDict.get (Some "b") content_items = Some (Some "y.xhtml").
Proof.
  cbn zeta.
  assert (forallb has_media_type (manifest_items (Demo.manifest_of Demo.twice_opf)) = true)
    as Hall by (vm_compute; reflexivity).
  split; [exact Hall|].
  destruct (duplicate_identifier_last_wins (Demo.manifest_of Demo.twice_opf) Hall)
    as (content_items & image_items & Hc & Hkeys & _ & Hget).
  exists content_items, image_items. split; [exact Hc|]. split; [|split].
  - rewrite Hkeys. vm_compute. reflexivity.
  - rewrite (proj1 (Hget (Some "a"))). vm_compute. reflexivity.
  - rewrite (proj1 (Hget (Some "b"))). vm_compute. reflexivity.
Defined.



(** ** The converter on the book of [Demo] *)

Example separate_nested :
  Soup.separate_headings
    [Soup.Tag "div" [] [Demo.h1 "a"; Soup.Tag "h2" [] [Demo.h1 "b"]]; Demo.h1 "c"]
  = [Soup.Tag "div" []
       [Demo.h1 "a"; Soup.new_p; Soup.Tag "h2" [] [Soup.new_p; Demo.h1 "b"]];
     Soup.new_p; Demo.h1 "c"].
Proof. reflexivity. Qed.

Example book_converted :
  @extract_content_from_epub Demo.book_libs Demo.env "p" true (Zip Demo.book) (Some "/img")
  = ([Mkdir "./data/p/epub"; Mkdir "./data/p/images/";
      Open_w "./data/p/images/i1.png"; Write "./data/p/images/i1.png" "PNG-A";
      Open_w "./data/p/images/i2.png"; Write "./data/p/images/i2.png" "PNG-B";
      Open_w "./data/p/epub/p.epub.md";
      Write "./data/p/epub/p.epub.md"
        (join_lines
           ["# T" +:+ Re.NL; "**作者：A**" +:+ Re.NL;
            @soup_str Demo.book_libs [Demo.h1 "Two"; Demo.img "/img/i2.png"];
            @soup_str Demo.book_libs
              [Demo.h1 "One"; Demo.img "/img/i1.png"; Soup.new_p; Demo.h1 "Uno"]]);
      Create_task "p" "/srv/data"],
     Some (join_lines
           ["# T" +:+ Re.NL; "**作者：A**" +:+ Re.NL;
            @soup_str Demo.book_libs [Demo.h1 "Two"; Demo.img "/img/i2.png"];
            @soup_str Demo.book_libs
              [Demo.h1 "One"; Demo.img "/img/i1.png"; Soup.new_p; Demo.h1 "Uno"]])).
Proof. vm_compute. reflexivity. Qed.

Example book_without_loop :
  (@extract_content_from_epub Demo.book_libs
     DemoShell.script_env
     "p" true (Zip Demo.book) None).2 = None.
Proof. vm_compute. reflexivity. Qed.

Example missing_file :
  @extract_content_from_epub Demo.book_libs Demo.env "p" false Missing None
  = ([Mkdtemp "/tmp/tmpq"; Mkdir "/tmp/tmpq"; Mkdir "/tmp/tmpq/images"], None).
Proof. vm_compute. reflexivity. Qed.

(** * Further properties of the conversion *)

(** ** When the conversion returns a text *)

Section outcomes.
Context `{Libs} (env : Env).
Import ElementTree.

Lemma read_package_pure (epub : gmap string string) :
  read_package epub = ([], (read_package epub).2).
Proof.
  unfold read_package, epub_read, fromstring, not_none.
  destruct (epub !! "META-INF/container.xml") as [container|]; [|done].
  rewrite bind_ret.
  destruct (ET_fromstring container) as [root|]; [|done]. rewrite bind_ret.
  destruct (find (OCF +:+ "rootfile") root) as [rootfile|]; [|done]. rewrite bind_ret.
  destruct (get "full-path" rootfile) as [opf_path|]; [|done].
  destruct (epub !! opf_path) as [opf|]; [|done]. rewrite bind_ret.
  destruct (ET_fromstring opf) as [opf_root|]; [|done]. by rewrite bind_ret.
Qed.

Lemma collect_items_pure (manifest : option Element) :
  collect_items manifest = ([], (collect_items manifest).2).
Proof.
  destruct manifest as [manifest|]; [|done]. rewrite collect_items_run.
  by destruct (forallb has_media_type (manifest_items manifest)).
Qed.

(** Either the conversion stops before the first file is opened, or the
    package descriptor and the manifest were read. *)
Lemma extract_cases product_code save src md_img_dir :
  extract_content_from_epub env product_code save src md_img_dir
    = (prepare env product_code save, None)
  ∨ ∃ epub opf_dir opf_root content_items image_items,
      src = Zip epub
      ∧ read_package epub = mret (opf_dir, opf_root)
      ∧ collect_items (find (OPF +:+ "manifest") opf_root)
        = mret (content_items, image_items).
Proof.
  destruct src as [| |epub]; [by left| |].
  { left. unfold extract_content_from_epub. simpl. by rewrite app_nil_r. }
  destruct (read_package epub) as [l [e|[opf_dir opf_root]]] eqn:Ep;
    pose proof (read_package_pure epub) as Hp; rewrite Ep in Hp; simpl in Hp;
    injection Hp as ->.
  { left. apply (extract_raises env product_code save epub md_img_dir e).
    unfold extract_body, zip_open. by rewrite bind_ret, Ep. }
  destruct (collect_items (find (OPF +:+ "manifest") opf_root))
    as [l [e|[content_items image_items]]] eqn:Ec;
    pose proof (collect_items_pure (find (OPF +:+ "manifest") opf_root)) as Hc;
    rewrite Ec in Hc; simpl in Hc; injection Hc as ->.
  { left. apply (extract_raises env product_code save epub md_img_dir e).
    change (read_package epub = mret (opf_dir, opf_root)) in Ep.
    unfold extract_body, zip_open. by rewrite bind_ret, Ep, bind_ret, Ec. }
  right. by exists epub, opf_dir, opf_root, content_items, image_items.
Qed.


Lemma persisting_result_without_loop (product_code : string) (src : source)
    (md_img_dir : option string) :
  loop_running env = false →
  (extract_content_from_epub env product_code true src md_img_dir).2 = None.
Proof.
  intros Hloop.
  destruct (extract_cases product_code true src md_img_dir)
    as [Hn|(epub & d & r & c & i & -> & Hp & Hc)].
  - by rewrite Hn.
  - rewrite (extract_run env product_code true epub md_img_dir _ _ _ _ Hp Hc).
    cbn [snd]. rewrite Hloop. by destruct (_ && _).
Qed.


(** In a persisting run without a running event loop the conversion
    returns [None] for every input, although, when the package descriptor
    and the manifest are read and the output file can be written, the
    assembled text has been written to the output path:
    [asyncio.create_task] raises after the files are in place. *)
Theorem persisting_run_without_loop (product_code : string) (src : source)
    (md_img_dir : option string) :
  loop_running env = false →
  let result := extract_content_from_epub env product_code true src md_img_dir in
  let path := output_path env product_code true in
  result.2 = None
  ∧ ∀ epub opf_dir opf_root content_items image_items,
      src = Zip epub →
      read_package epub = mret (opf_dir, opf_root) →
      collect_items (find (OPF +:+ "manifest") opf_root) = mret (content_items, image_items) →
      let markdown_text :=
        assembled env epub opf_dir opf_root (image_dir env product_code true)
          (image_base product_code md_img_dir) content_items image_items in
      can_open env path = true →
      can_write env path markdown_text = true →
      (Write path markdown_text) ∈ result.1
      ∧ ∀ d, Rmtree d ∉ result.1.
Proof.
  intros Hloop. cbn zeta. split.
  - by apply persisting_result_without_loop.
  - intros epub d r c i -> Hp Hc Ho Hw.
    rewrite (extract_run env product_code true epub md_img_dir _ _ _ _ Hp Hc).
    cbn [fst]. unfold assembled in Hw |- *. unfold delivery.
    rewrite Ho, Hw, Hloop. split.
    + rewrite !elem_of_app. right; right. right; left.
    + intros dir. rewrite !elem_of_app.
      intros [Hin|[Hin|Hin]].
      * unfold prepare in Hin. simpl in Hin.
        apply elem_of_cons in Hin as [?|Hin]; [done|].
        apply list_elem_of_singleton in Hin. done.
      * apply list_elem_of_In, in_flat_map in Hin as (it & _ & Hin).
        unfold image_effects in Hin. destruct it.2 as [href|]; [|done].
        destruct (can_open env (save_path _ _ _)); [|done].
        destruct Hin as [?|Hin]; [done|].
        destruct (epub !! PosixPath.join d href) as [data|]; [|done].
        destruct (can_write env (save_path _ _ _) data); [|done].
        by destruct Hin as [?|[]].
      * apply elem_of_cons in Hin as [?|Hin]; [done|].
        apply list_elem_of_singleton in Hin. done.
Qed.

End outcomes.

(** ** What a failed conversion leaves behind *)

Section leftovers.
Context `{Libs} (env : Env).
Import ElementTree.

Lemma prepare_no_rmtree product_code save d : Rmtree d ∉ prepare env product_code save.
Proof.
  unfold prepare. destruct save; simpl; intros Hin;
    repeat (apply elem_of_cons in Hin as [?|Hin]; [done|]);
    by apply elem_of_nil in Hin.
Qed.

Lemma image_effects_no_rmtree epub opf_dir image_dir
    (its : list (option string * option string)) d :
  Rmtree d ∉ flat_map (image_effects env epub opf_dir image_dir) its.
Proof.
  intros Hin. apply list_elem_of_In, in_flat_map in Hin as (it & _ & Hin).
  unfold image_effects in Hin. destruct it.2 as [href|]; [|done].
  destruct (can_open env (save_path _ _ _)); [|done].
  destruct Hin as [?|Hin]; [done|].
  destruct (epub !! PosixPath.join opf_dir href) as [data|]; [|done].
  destruct (can_write env (save_path _ _ _) data); [|done].
  by destruct Hin as [?|[]].
Qed.

(** A conversion that returns [None] although the upload task could be
    created either stopped before any file was opened, its only effects
    being the directories made before the archive is opened, or it failed
    to open or to write the output document: then the image files have been
    written before, and they stay. *)
Theorem failure_before_or_at_output (product_code : string) (save : bool) (src : source)
    (md_img_dir : option string) :
  (save = true → loop_running env = true) →
  let result := extract_content_from_epub env product_code save src md_img_dir in
  let path := output_path env product_code save in
  let image_dir := image_dir env product_code save in
  result.2 = None →
  (result.1 = prepare env product_code save
   ∧ Forall (λ ev, writes_file ev = false) result.1)
  ∨ ∃ epub opf_dir opf_root content_items image_items,
      src = Zip epub
      ∧ read_package epub = mret (opf_dir, opf_root)
      ∧ collect_items (find (OPF +:+ "manifest") opf_root)
        = mret (content_items, image_items)
      ∧ (can_open env path = false
         ∨ can_write env path
             (assembled env epub opf_dir opf_root image_dir
                (image_base product_code md_img_dir) content_items image_items) = false)
      ∧ result.1
        = prepare env product_code save
          ++ flat_map (image_effects env epub opf_dir image_dir) image_items
          ++ (if can_open env path then [Open_w path] else []).
Proof.
  intros Hloop. cbn zeta. intros Hn.
  destruct (extract_cases env product_code save src md_img_dir)
    as [Hf|(epub & d & r & c & i & -> & Hp & Hc)].
  - left. rewrite Hf. split; [done|apply prepare_writes_nothing].
  - right. exists epub, d, r, c, i. split; [done|]. split; [done|]. split; [done|].
    rewrite (extract_run env product_code save epub md_img_dir _ _ _ _ Hp Hc) in Hn |- *.
    cbn [fst snd] in Hn |- *. unfold assembled, delivery.
    destruct (can_open env _) eqn:Ho; [|by split; [left|]].
    destruct (can_write env _ _) eqn:Hw; [|by split; [right|]].
    cbn [andb] in Hn. destruct save; [rewrite Hloop in Hn by done|]; done.
Qed.

(** In a run that does not persist, the scratch directory made by
    [tempfile.mkdtemp] is removed exactly when the conversion returns a
    text: every failure leaves it on the disk. *)
Theorem scratch_directory_removed_iff_text (product_code : string) (src : source)
    (md_img_dir : option string) :
  let result := extract_content_from_epub env product_code false src md_img_dir in
  Mkdtemp (temp_dir env) ∈ result.1
  ∧ (Rmtree (temp_dir env) ∈ result.1 ↔ is_Some result.2).
Proof.
  cbn zeta.
  destruct (extract_cases env product_code false src md_img_dir)
    as [Hf|(epub & d & r & c & i & -> & Hp & Hc)].
  - rewrite Hf. cbn [fst snd]. split; [left|]. split.
    + intros Hin. by apply prepare_no_rmtree in Hin.
    + by intros [? ?].
  - rewrite (extract_run env product_code false epub md_img_dir _ _ _ _ Hp Hc).
    cbn [fst snd andb]. split; [left|]. unfold delivery.
    destruct (can_open env _) eqn:Ho; [destruct (can_write env _ _) eqn:Hw|]; cbn [andb].
    + split; [by eexists|]. intros _.
      rewrite !elem_of_app. right; right. right; right; left.
    + split; [|by intros [? ?]]. rewrite !elem_of_app. intros [Hin|[Hin|Hin]].
      * by apply prepare_no_rmtree in Hin.
      * by apply image_effects_no_rmtree in Hin.
      * apply list_elem_of_singleton in Hin. done.
    + split; [|by intros [? ?]]. rewrite app_nil_r, !elem_of_app. intros [Hin|Hin].
      * by apply prepare_no_rmtree in Hin.
      * by apply image_effects_no_rmtree in Hin.
Qed.

End leftovers.

(** ** More on paths *)

Section more_path_facts.
Import PosixPath.

Lemma take_drop n p : take n p +:+ drop n p = p.
Proof.
  revert n; induction p as [|a t IH]; intros [|n]; try done.
  simpl. rewrite append_String. by rewrite IH.
Qed.


Lemma has_char_rfind c p : has_char c p = false ↔ rfind c p = (-1)%Z.
Proof.
  induction p as [|a t IH]; simpl; [done|].
  pose proof (rfind_lower c t) as Hl.
  destruct (0 <=? rfind c t)%Z eqn:E.
  - apply Z.leb_le in E. split; [|lia].
    intros Hf. apply orb_false_iff in Hf as [_ Hf]. apply IH in Hf. lia.
  - apply Z.leb_gt in E. assert (rfind c t = (-1)%Z) as Ht by lia.
    apply IH in Ht. rewrite Ht, orb_false_r.
    destruct (decide (a = c)) as [->|Hne].
    + rewrite bool_decide_eq_true_2 by done. done.
    + rewrite bool_decide_eq_false_2 by done. done.
Qed.

Lemma has_char_drop_after c p n :
  (rfind c p < Z.of_nat n)%Z → has_char c (drop n p) = false.
Proof.
  revert n; induction p as [|a t IH]; intros n; [by destruct n|].
  pose proof (rfind_lower c t) as Hl. destruct n as [|n].
  - intros Hr. change (drop 0 (String a t)) with (String a t).
    apply has_char_rfind. pose proof (rfind_lower c (String a t)). lia.
  - simpl. destruct (0 <=? rfind c t)%Z eqn:E.
    + apply Z.leb_le in E. intros Hr. apply IH. lia.
    + apply Z.leb_gt in E. intros _. apply IH. lia.
Qed.

Lemma rfind_append c a b :
  rfind c (a +:+ b)
  = if (0 <=? rfind c b)%Z then (Z.of_nat (String.length a) + rfind c b)%Z
    else rfind c a.
Proof.
  induction a as [|x a IH]; simpl.
  - rewrite append_Empty. destruct (0 <=? rfind c b)%Z eqn:E; [done|].
    apply Z.leb_gt in E. pose proof (rfind_lower c b). lia.
  - rewrite IH. destruct (0 <=? rfind c b)%Z eqn:E.
    + apply Z.leb_le in E.
      destruct (0 <=? Z.of_nat (String.length a) + rfind c b)%Z eqn:E'; [lia|].
      apply Z.leb_gt in E'. lia.
    + done.
Qed.

Lemma drop_append a b : drop (String.length a) (a +:+ b) = b.
Proof. induction a as [|x a IH]; [by destruct b|]. by rewrite append_String. Qed.

Lemma splitext_ext_no_sep p : has_char sep (splitext p).2 = false.
Proof.
  unfold splitext.
  destruct ((rfind sep p <? rfind extsep p)%Z && _) eqn:E; [|done].
  apply andb_true_iff in E as [E _]. apply Z.ltb_lt in E. simpl.
  unfold slice_from. apply has_char_drop_after.
  pose proof (rfind_lower sep p). lia.
Qed.

(** [os.path.splitext] splits a path without losing anything: the root
    followed by the extension is the path; the extension is empty or
    starts with a period, and has no slash in it. *)
Theorem splitext_round_trip (p : string) :
  (splitext p).1 +:+ (splitext p).2 = p
  ∧ ((splitext p).2 = EmptyString ∨ ∃ r, (splitext p).2 = String extsep r)
  ∧ has_char sep (splitext p).2 = false.
Proof.
  split; [|split; [apply splitext_ext|apply splitext_ext_no_sep]].
  unfold splitext. destruct (_ && _); simpl.
  - apply take_drop.
  - clear. induction p as [|a t IH]; [done|]. by rewrite append_String, IH.
Qed.

Lemma basename_join_name (dir name : string) :
  has_char sep name = false → basename (dir +:+ "/" +:+ name) = name.
Proof.
  intros Hn. unfold basename, slice_from.
  rewrite rfind_append.
  assert (rfind sep ("/" +:+ name) = 0%Z) as ->.
  { change ("/" +:+ name) with (String sep name). simpl.
    apply has_char_rfind in Hn. rewrite Hn. simpl.
    by destruct (decide (sep = sep)). }
  simpl. replace (Z.to_nat (Z.of_nat (String.length dir) + 0 + 1))
    with (S (String.length dir)) by lia.
  change ("/" +:+ name) with (String sep name).
  replace (S (String.length dir)) with (String.length (dir +:+ String sep EmptyString)).
  - replace (dir +:+ String sep name)
      with ((dir +:+ String sep EmptyString) +:+ name); [apply drop_append|].
    clear. induction dir as [|x d IH]; [done|]. rewrite !append_String. by rewrite IH.
  - rewrite length_append. simpl. lia.
Qed.

(** [os.path.basename] yields the part after the last slash: it has no
    slash, it is its own basename, and a slash-free name keeps being the
    basename whatever directory is put before it. *)
Theorem basename_of_any_directory (p dir name : string) :
  has_char sep (basename p) = false
  ∧ basename (basename p) = basename p
  ∧ (has_char sep name = false → basename (dir +:+ "/" +:+ name) = name).
Proof.
  split; [|split].
  - apply has_char_rfind, rfind_basename.
  - apply basename_idempotent.
  - apply basename_join_name.
Qed.

Lemma basename_of_any_directory_witness :
  has_char sep "pic.png" = false ∧ basename ("../a" +:+ "/" +:+ "pic.png") = "pic.png".
Proof.
  assert (has_char sep "pic.png" = false) as Hn by (vm_compute; reflexivity).
  split; [exact Hn|].
  exact (proj2 (proj2 (basename_of_any_directory EmptyString "../a" "pic.png")) Hn).
Defined.


End more_path_facts.

(** ** More on the blank-line pass *)

Section more_blank_lines.
Import Re PosixPath.

Lemma calm_append_r a b : calm (a +:+ b) → calm b.
Proof.
  induction a as [|x a IH]; [done|]. rewrite append_String. intros [_ Hc]. by apply IH.
Qed.

Lemma calm_or_three_lf s : calm s ∨ ∃ pre post, s = pre +:+ three_lf +:+ post.
Proof.
  induction s as [|a t IH]; [by left|].
  destruct IH as [Ht|(pre & post & ->)].
  - destruct (decide (span_len is_lf (String a t) < 3)) as [Hs|Hs]; [by left|].
    right.
    destruct t as [|b [|c u]]; simpl in Hs;
      repeat (match type of Hs with context [is_lf ?x] =>
                destruct (is_lf x) eqn:?; simpl in Hs end); try lia.
    exists EmptyString, u. unfold is_lf in *.
    repeat match goal with E : bool_decide _ = true |- _ =>
             apply bool_decide_eq_true in E; subst end.
    reflexivity.
  - right. exists (String a pre), post. by rewrite append_String.
Qed.

(** The blank-line pass leaves no three line feeds in a row, and the
    texts it leaves unchanged are exactly those that have none. *)
Theorem collapse_leaves_no_three_lf (md_content : string) :
  (∀ pre post, collapse_blank_lines md_content ≠ pre +:+ three_lf +:+ post)
  ∧ (collapse_blank_lines md_content = md_content
     ↔ ∀ pre post, md_content ≠ pre +:+ three_lf +:+ post).
Proof.
  assert (∀ s pre post, calm s → s ≠ pre +:+ three_lf +:+ post) as Hcalm.
  { intros s pre post Hs ->. apply calm_append_r in Hs.
    unfold three_lf, NL in Hs. rewrite !append_String, !append_Empty in Hs.
    destruct Hs as [Hs _]. simpl in Hs.
    replace (is_lf LF) with true in Hs by done. lia. }
  split; [|split].
  - intros pre post. apply Hcalm. apply calm_sub.
  - intros Heq pre post. rewrite <- Heq. apply Hcalm, calm_sub.
  - intros Hno. destruct (calm_or_three_lf md_content) as [Hc|(pre & post & Hs)].
    + by apply sub_calm.
    + by destruct (Hno pre post).
Qed.

Lemma without_lf_sub k s :
  k ≤ span_len is_lf s →
  without_lf (sub_from blank_lines k s) = without_lf s.
Proof.
  revert k; induction s as [|a t IH]; intros [|k]; try done.
  - intros _. cbn [sub_from].
    destruct (blank_lines (String a t)) as [[n r]|] eqn:E.
    + apply blank_lines_Some in E as (-> & Hn & ->).
      cbn [span_len] in *. destruct (is_lf a) eqn:Ea; [|lia].
      change (without_lf (String LF (String LF
        (sub_from blank_lines (Init.Nat.pred (S (span_len is_lf t))) t)))
        = without_lf (String a t)).
      cbn [without_lf Init.Nat.pred]. replace (is_lf LF) with true by done.
      rewrite Ea. apply IH. lia.
    + cbn [without_lf]. by rewrite (IH 0) by lia.
  - cbn [span_len sub_from without_lf]. destruct (is_lf a); [|lia].
    intros Hk. apply IH. lia.
Qed.

(** The blank-line pass deletes line feeds and nothing else: without its
    line feeds the text is what it was. *)
Theorem collapse_deletes_only_lf (md_content : string) :
  without_lf (collapse_blank_lines md_content) = without_lf md_content.
Proof. apply without_lf_sub. lia. Qed.

End more_blank_lines.

(** ** More on content documents *)

Section more_soup_facts.
Context `{Libs}.
Import Soup.

Lemma headings_in_nodes n :
  headings_in (tokens n) = length (filter (λ m, is_tag headings m = true) (nodes n)).
Proof.
  induction n as [s|name attrs cs IH] using node_induction; [done|].
  cbn [tokens nodes headings_in opens_heading]. rewrite filter_cons.
  rewrite headings_in_app. cbn [headings_in opens_heading is_tag].
  assert (headings_in (flat_map tokens cs)
          = length (filter (λ m, is_tag headings m = true) (flat_map nodes cs))) as ->.
  { induction IH as [|c cs Hc _ IHcs]; [done|]. cbn [flat_map].
    by rewrite headings_in_app, filter_app, length_app, Hc, IHcs. }
  destruct (decide (bool_decide (name ∈ headings) = true)) as [->|Hf]; simpl; [lia|].
  apply not_true_is_false in Hf. rewrite Hf. simpl. lia.
Qed.

Lemma headings_in_soup soup :
  headings_in (soup_tokens soup) = length (find_all headings soup).
Proof.
  unfold soup_tokens, find_all. induction soup as [|n soup IH]; [done|].
  cbn [flat_map]. by rewrite headings_in_app, filter_app, length_app, headings_in_nodes, IH.
Qed.

Lemma separated_counts i ts :
  headings_in (separated i ts) = headings_in ts
  ∧ length (separated i ts)
    = length ts + 3 * (if decide (i = 0) then pred (headings_in ts) else headings_in ts).
Proof.
  revert i; induction ts as [|t r IH]; intros i.
  { simpl. split; [done|]. destruct (decide (i = 0)); lia. }
  cbn [separated headings_in]. destruct (opens_heading t) eqn:Et.
  - destruct (IH (S i)) as [IH1 IH2]. rewrite headings_in_app, length_app.
    cbn [headings_in length]. rewrite Et, IH1, IH2. cbn [decide]. split.
    + destruct (bool_decide (0 < i)); simpl; lia.
    + destruct (decide (S i = 0)) as [|_]; [lia|].
      destruct (decide (i = 0)) as [->|Hi].
      * rewrite bool_decide_eq_false_2 by lia. simpl. lia.
      * rewrite bool_decide_eq_true_2 by lia. simpl. lia.
  - destruct (IH i) as [IH1 IH2]. cbn [headings_in length]. rewrite Et, IH1, IH2.
    split; [done|]. destruct (decide (i = 0)); lia.
Qed.

Lemma separate_untouched n :
  ∀ i, i + headings_in (tokens n) ≤ 1 →
       separate i n = (i + headings_in (tokens n), [n]).
Proof.
  induction n as [s|name attrs cs IH] using node_induction; intros i Hi.
  { simpl. f_equal. lia. }
  assert (∀ j, j + headings_in (soup_tokens cs) ≤ 1 →
               separate_list j cs = (j + headings_in (soup_tokens cs), cs)) as Hcs.
  { clear Hi. induction IH as [|c cs Hc _ IHcs]; intros j Hj.
    - simpl. f_equal. lia.
    - unfold soup_tokens in *. cbn [flat_map] in *. rewrite headings_in_app in *.
      cbn [separate_list]. rewrite Hc by lia. rewrite IHcs by lia.
      simpl. f_equal. lia. }
  rewrite separate_Tag. cbn zeta.
  cbn [tokens headings_in opens_heading] in *. rewrite headings_in_app in *.
  cbn [headings_in opens_heading] in *.
  change (is_tag headings (Tag name attrs cs)) with (bool_decide (name ∈ headings)).
  unfold soup_tokens in Hcs.
  destruct (bool_decide (name ∈ headings)); cbn [andb] in *.
  - rewrite Hcs by lia. cbn [fst snd].
    rewrite bool_decide_eq_false_2 by lia. simpl. f_equal. lia.
  - rewrite Hcs by lia. cbn [fst snd]. simpl. f_equal. lia.
Qed.

Lemma separate_headings_untouched soup :
  headings_in (soup_tokens soup) ≤ 1 → separate_headings soup = soup.
Proof.
  intros Hk. unfold separate_headings.
  assert (∀ l j, j + headings_in (soup_tokens l) ≤ 1 →
                 separate_list j l = (j + headings_in (soup_tokens l), l)) as Hl.
  { clear. induction l as [|c cs IH]; intros j Hj.
    - simpl. f_equal. lia.
    - unfold soup_tokens in *. cbn [flat_map] in *. rewrite headings_in_app in *.
      cbn [separate_list]. rewrite separate_untouched by lia. rewrite IH by lia.
      simpl. f_equal. lia. }
  by rewrite Hl by lia.
Qed.

(** Heading separation keeps the headings of a document, adds one empty
    block (three tokens) for each heading after the first, and leaves a
    document with at most one heading as it is. *)
Theorem headings_separated_count (soup : list node) :
  let k := length (find_all headings soup) in
  length (find_all headings (separate_headings soup)) = k
  ∧ length (soup_tokens (separate_headings soup)) = length (soup_tokens soup) + 3 * pred k
  ∧ (k ≤ 1 → separate_headings soup = soup).
Proof.
  cbn zeta. rewrite <- !headings_in_soup. split; [|split].
  - unfold separate_headings. rewrite separate_list_tokens.
    by destruct (separated_counts 0 (soup_tokens soup)) as [-> _].
  - unfold separate_headings. rewrite separate_list_tokens.
    by destruct (separated_counts 0 (soup_tokens soup)) as [_ ->].
  - apply separate_headings_untouched.
Qed.

Lemma headings_separated_count_witness :
  let soup := [Demo.h1 "One"; Demo.img "a/pic.png"] in
  length (find_all headings soup) ≤ 1 ∧ separate_headings soup = soup.
Proof.
  cbn zeta.
  assert (length (find_all headings [Demo.h1 "One"; Demo.img "a/pic.png"]) ≤ 1) as Hk
    by (vm_compute; lia).
  split; [exact Hk|].
  exact (proj2 (proj2 (headings_separated_count [Demo.h1 "One"; Demo.img "a/pic.png"])) Hk).
Defined.

Lemma rewrite_images_empty n : rewrite_images ∅ n = n.
Proof.
  induction n as [s|name attrs cs IH] using node_induction; [done|].
  cbn [rewrite_images]. f_equal.
  - destruct (decide (name = "img")); [|done]. unfold rewrite_src.
    destruct (PyDict.get "src" attrs) as [src|]; [|done].
    rewrite !lookup_empty. by destruct (PosixPath.is_empty src).
  - induction IH as [|c cs Hc _ IHcs]; [done|]. simpl. by rewrite Hc, IHcs.
Qed.

(** When no image was extracted the image references of a document are
    all left as they are; if the document has at most one heading as well,
    html2text gets the document exactly as BeautifulSoup parsed and printed
    it. *)
Theorem document_passes_unchanged (file_content : string) :
  map (rewrite_images ∅) (BeautifulSoup file_content) = BeautifulSoup file_content
  ∧ (length (find_all headings (BeautifulSoup file_content)) ≤ 1 →
     convert_document ∅ file_content
     = post_process (h2t_handle (soup_str (BeautifulSoup file_content)))).
Proof.
  assert (map (rewrite_images ∅) (BeautifulSoup file_content)
          = BeautifulSoup file_content) as Hm.
  { induction (BeautifulSoup file_content) as [|n l IH]; [done|].
    simpl. by rewrite rewrite_images_empty, IH. }
  split; [done|]. intros Hk. unfold convert_document. rewrite Hm.
  rewrite <- headings_in_soup in Hk. by rewrite separate_headings_untouched.
Qed.

End more_soup_facts.

Lemma document_passes_unchanged_witness :
  length (Soup.find_all Soup.headings (@BeautifulSoup Demo.book_libs "TWO")) ≤ 1
  ∧ @convert_document Demo.book_libs ∅ "TWO"
    = post_process (@h2t_handle Demo.book_libs
                      (@soup_str Demo.book_libs (@BeautifulSoup Demo.book_libs "TWO"))).
Proof.
  assert (length (Soup.find_all Soup.headings (@BeautifulSoup Demo.book_libs "TWO")) ≤ 1)
    as Hk by (vm_compute; lia).
  split; [exact Hk|].
  exact (proj2 (@document_passes_unchanged Demo.book_libs "TWO") Hk).
Defined.

(** ** More on the spine and on the images *)

Section more_pipeline_facts.
Context `{Libs} (env : Env).
Import ElementTree PosixPath.

(** A spine that is not empty but names no content document gives no
    fragment at all: the manifest order is a fallback for an empty spine
    only, and the text written is the bare header; what is returned is
    that text read back. *)
Theorem spine_without_content_documents (product_code : string) (save : bool)
    (epub : gmap string string) (md_img_dir : option string) (opf_dir : string)
    (opf_root : Element)
    (content_items image_items : list (option string * option string)) :
  read_package epub = mret (opf_dir, opf_root) →
  collect_items (find (OPF +:+ "manifest") opf_root) = mret (content_items, image_items) →
  spine_itemrefs opf_root ≠ [] →
  (∀ idref, idref ∈ spine_itemrefs opf_root → PyDict.get idref content_items = None) →
  let path := output_path env product_code save in
  let text :=
    join_lines (header (metadata_text opf_root "title") (metadata_text opf_root "creator")) in
  let result := extract_content_from_epub env product_code save (Zip epub) md_img_dir in
  (∀ image_map markdown_content,
     convert_all epub opf_dir (spine_itemrefs opf_root) content_items image_map
       markdown_content = mret markdown_content)
  ∧ (∀ written, (Write path written) ∈ result.1 →
       written = text ∨ ∃ it, it ∈ image_items ∧ (Write path written) ∈ image_effects env epub
                                 opf_dir (image_dir env product_code save) it)
  ∧ result.2
    = if can_open env path && can_write env path text
      then if save && negb (loop_running env) then None else Some (read_text text)
      else None.
Proof.
  intros Hp Hc Hne Hnone. cbn zeta.
  assert (documents (spine_itemrefs opf_root) content_items = []) as Hd.
  { unfold documents. destruct (spine_itemrefs opf_root) as [|r rs]; [done|].
    clear Hne. generalize dependent (r :: rs). intros l.
    induction l as [|x l IH]; intros Hnone; [done|]. csimpl.
    rewrite (Hnone x) by left. apply IH. intros y Hy. apply Hnone. by right. }
  split; [|split].
  - intros image_map mc. by rewrite convert_all_run, Hd, app_nil_r.
  - rewrite (extract_run env product_code save epub md_img_dir _ _ _ _ Hp Hc).
    cbn [fst]. rewrite Hd, app_nil_r. intros written.
    rewrite !elem_of_app. intros [Hin|[Hin|Hin]].
    + exfalso. unfold prepare in Hin. destruct save; simpl in Hin;
        repeat (apply elem_of_cons in Hin as [?|Hin]; [done|]);
        by apply elem_of_nil in Hin.
    + right. apply list_elem_of_In, in_flat_map in Hin as (it & Hit & Hin).
      exists it. split; by apply list_elem_of_In.
    + left. unfold delivery in Hin.
      destruct (can_open env _); [|by apply elem_of_nil in Hin].
      apply elem_of_cons in Hin as [?|Hin]; [done|].
      destruct (can_write env _ _); [|by apply elem_of_nil in Hin].
      apply elem_of_cons in Hin as [[= ->]|Hin]; [done|].
      exfalso. destruct save; [destruct (loop_running env)|];
        repeat (apply elem_of_cons in Hin as [?|Hin]; [done|]);
        by apply elem_of_nil in Hin.
  - rewrite (extract_run env product_code save epub md_img_dir _ _ _ _ Hp Hc).
    cbn [snd]. by rewrite Hd, app_nil_r.
Qed.



(** An image is found by its basename from any directory: when an [img]
    refers to [dir/name], [name] being the basename of the [href] of an
    extracted image (one whose file was opened and written), and the
    literal reference is no key of the rename map, the reference is
    rewritten to that of the last image extracted under this basename. *)
Theorem reference_through_basename (epub : gmap string string)
    (opf_dir image_dir md_img_dir dir : string)
    (l1 l2 : list (option string * option string))
    (it : option string * option string) (href data : string) :
  image_data env epub opf_dir image_dir it = Some (href, data) →
  (∀ it' href' data', it' ∈ l2 →
     image_data env epub opf_dir image_dir it' = Some (href', data') →
     href' ≠ basename href ∧ basename href' ≠ basename href) →
  let image_map :=
    (save_images env epub opf_dir image_dir md_img_dir (l1 ++ it :: l2)).2 in
  let src := dir +:+ "/" +:+ basename href in
  ∃ renamed,
    image_map = inr renamed
    ∧ (renamed !! src = None →
       Soup.rewrite_src renamed [("src", src)]
       = [("src", md_img_dir +:+ "/" +:+ py_str it.1 +:+ (splitext href).2)]).
Proof.
  intros Hd Hlater. cbn zeta. rewrite save_images_run. cbn [snd].
  eexists. split; [reflexivity|]. intros Hsrc.
  rewrite rewrite_src_spec.
  change (PyDict.get "src" [("src", dir +:+ "/" +:+ basename href)])
    with (Some (dir +:+ "/" +:+ basename href)). cbn match.
  assert (is_empty (dir +:+ "/" +:+ basename href) = false) as ->.
  { clear. induction dir as [|x d IH]; [done|]. by rewrite append_String. }
  unfold rewritten_reference. rewrite Hsrc.
  rewrite basename_join_name by apply has_char_rfind, rfind_basename.
  destruct (image_references_and_names env epub opf_dir image_dir md_img_dir
              (l1 ++ it :: l2)) as (Hrec & _ & _).
  destruct (Hrec l1 it l2 href data eq_refl Hd) as (_ & _ & Hkey).
  by rewrite (Hkey (basename href) (or_intror eq_refl) Hlater).
Qed.

End more_pipeline_facts.

Lemma spine_without_content_documents_witness :
  @read_package DemoMore.ghost_libs Demo.book = mret ("OEBPS/", DemoMore.ghost_opf)
  ∧ collect_items (ElementTree.find (OPF +:+ "manifest") DemoMore.ghost_opf)
    = mret ([(Some "c1", Some "one.xhtml")], [])
  ∧ spine_itemrefs DemoMore.ghost_opf ≠ []
  ∧ (@extract_content_from_epub DemoMore.ghost_libs Demo.env "p" false (Zip Demo.book) None).2
    = Some ("# T" +:+ String "010" EmptyString).
Proof.
  assert (@read_package DemoMore.ghost_libs Demo.book = mret ("OEBPS/", DemoMore.ghost_opf))
    as Hp by (vm_compute; reflexivity).
  assert (collect_items (ElementTree.find (OPF +:+ "manifest") DemoMore.ghost_opf)
          = mret ([(Some "c1", Some "one.xhtml")], [])) as Hc by (vm_compute; reflexivity).
  assert (spine_itemrefs DemoMore.ghost_opf ≠ []) as Hne by (vm_compute; discriminate).
  assert (∀ idref, idref ∈ spine_itemrefs DemoMore.ghost_opf →
            PyDict.get idref [(Some "c1", Some "one.xhtml")] = None) as Hnone.
  { intros idref Hin. apply list_elem_of_In in Hin. vm_compute in Hin.
    destruct Hin as [<-|[]]. vm_compute. reflexivity. }
  split; [exact Hp|]. split; [exact Hc|]. split; [exact Hne|].
  destruct (@spine_without_content_documents DemoMore.ghost_libs Demo.env "p" false
              Demo.book None _ _ _ _ Hp Hc Hne Hnone) as (_ & _ & Hres).
  rewrite Hres. vm_compute. reflexivity.
Defined.



Lemma reference_through_basename_witness :
  let it := (Some "i2", Some "b/dot.png") in
  let src := "../images" +:+ "/" +:+ PosixPath.basename "b/dot.png" in
  image_data Demo.env Demo.album "OEBPS/" "out" it = Some ("b/dot.png", "PNG-DOT")
  ∧ ∃ renamed,
      (save_images Demo.env Demo.album "OEBPS/" "out" "/img"
         ([(Some "i1", Some "a/pic.png")] ++ it :: [])).2 = inr renamed
      ∧ Soup.rewrite_src renamed [("src", src)]
        = [("src", "/img" +:+ "/" +:+ py_str it.1 +:+ (PosixPath.splitext "b/dot.png").2)].
Proof.
  cbn zeta.
  assert (image_data Demo.env Demo.album "OEBPS/" "out" (Some "i2", Some "b/dot.png")
          = Some ("b/dot.png", "PNG-DOT")) as Hd by (vm_compute; reflexivity).
  split; [exact Hd|].
  destruct (reference_through_basename Demo.env Demo.album "OEBPS/" "out"
              "/img" "../images" [(Some "i1", Some "a/pic.png")] []
              (Some "i2", Some "b/dot.png") "b/dot.png" "PNG-DOT" Hd)
    as (renamed & Heq & Hrw).
  { intros it' href' data' Hin. by apply elem_of_nil in Hin. }
  exists renamed. split; [exact Heq|]. apply Hrw.
  rewrite save_images_run in Heq. cbn [snd] in Heq. injection Heq as <-.
  vm_compute. reflexivity.
Defined.

Lemma image_references_and_names_witness :
  let image_items := [(Some "i1", Some "a/pic.png"); (Some "i2", Some "b/pic.png")] in
  let image_map := foldl (image_step Demo.env Demo.book "OEBPS/" "out" "/img") ∅ image_items in
  image_data Demo.env Demo.book "OEBPS/" "out" (Some "i2", Some "b/pic.png")
  = Some ("b/pic.png", "PNG-B")
  ∧ image_map !! "b/pic.png" = Some ("/img" +:+ "/" +:+ "i2" +:+ ".png")
  ∧ image_map !! "pic.png" = Some ("/img" +:+ "/" +:+ "i2" +:+ ".png")
  ∧ new_image_name (Some "i1") "a/pic.png" ≠ new_image_name (Some "i2") "b/pic.png".
Proof.
  cbn zeta.
  assert (image_data Demo.env Demo.book "OEBPS/" "out" (Some "i2", Some "b/pic.png")
          = Some ("b/pic.png", "PNG-B")) as Hd by (vm_compute; reflexivity).
  destruct (image_references_and_names Demo.env Demo.book "OEBPS/" "out" "/img"
              [(Some "i1", Some "a/pic.png"); (Some "i2", Some "b/pic.png")])
    as (Hrec & _ & Hnames).
  destruct (Hrec [(Some "i1", Some "a/pic.png")] (Some "i2", Some "b/pic.png") []
              "b/pic.png" "PNG-B" eq_refl Hd) as (_ & _ & Hkey).
  assert (∀ it' href' data', it' ∈ @nil (option string * option string) →
            image_data Demo.env Demo.book "OEBPS/" "out" it' = Some (href', data') →
            href' ≠ "b/pic.png" ∧ PosixPath.basename href' ≠ "b/pic.png") as Hl1
    by (intros ? ? ? Hin; by apply elem_of_nil in Hin).
  assert (∀ it' href' data', it' ∈ @nil (option string * option string) →
            image_data Demo.env Demo.book "OEBPS/" "out" it' = Some (href', data') →
            href' ≠ PosixPath.basename "b/pic.png"
            ∧ PosixPath.basename href' ≠ PosixPath.basename "b/pic.png") as Hl2
    by (intros ? ? ? Hin; by apply elem_of_nil in Hin).
  split; [exact Hd|]. split; [exact (Hkey "b/pic.png" (or_introl eq_refl) Hl1)|].
  split; [exact (Hkey (PosixPath.basename "b/pic.png") (or_intror eq_refl) Hl2)|].
  apply Hnames; [discriminate|]. right. split; vm_compute; reflexivity.
Defined.

Example product_id_ex :
  Helpers.get_product_id DemoHelpers.digit_len "100227-01_book.epub" = Some "100227-01".
Proof. reflexivity. Qed.

Example first_line_ex :
  Helpers.first_line_content ("##  *War* and _Peace_  " +:+ Re.NL +:+ "text")
  = Some "War and Peace".
Proof. vm_compute. reflexivity. Qed.

Example first_line_ex2 : Helpers.first_line_content ("# **" +:+ Re.NL +:+ "text") = None.
Proof. vm_compute. reflexivity. Qed.

Example first_line_ex3 : Helpers.first_line_content "# *#x" = Some "#x".
Proof. vm_compute. reflexivity. Qed.

(** ** The callers *)

Section shell_facts.
Context `{Libs} (env : Env) (world : World).
Import ElementTree.

Lemma report_None events : (report (events, None)).2 = Exit 1.
Proof. done. Qed.

(** Run without an event loop, as the script is, [main] never ends in
    success when asked to persist: the conversion writes its files, fails
    to create the upload task, returns [None], and [main] exits with
    status 1 (or with the exception of an unreadable [--file]). *)
Theorem main_persisting_never_succeeds (args : Args) :
  args_save args = true →
  loop_running env = false →
  (main env world args).2 = Exit 1 ∨ (main env world args).2 = Uncaught.
Proof.
  intros Hsave Hloop. unfold main. rewrite Hsave.
  destruct (negb (truthy (args_src args)) && negb (truthy (args_file args))); [by left|].
  destruct (truthy (args_src args)).
  - destruct (String.prefix "http://" _ || String.prefix "https://" _).
    + left. unfold process_epub_url.
      destruct (http_get world _); try done.
      unfold report. cbn [fst snd].
      by rewrite (persisting_result_without_loop env _ _ _ Hloop).
    + destruct (at_path world _) as [| |epub] eqn:Es; [by left| |]; left;
        unfold report; cbn [fst snd];
        by rewrite (persisting_result_without_loop env _ _ _ Hloop).
  - destruct (file_bytes world _); [|by right]. left.
    unfold process_epub_file, report. cbn [fst snd].
    by rewrite (persisting_result_without_loop env _ _ _ Hloop).
Qed.

(** A download runs the conversion only when the body arrives in full;
    the temporary file it is written to is removed exactly then: a download
    that breaks off while streaming leaves the file on the disk, and one
    that fails before streaming makes none. *)
Theorem download_and_temporary_file (url product_code : string)
    (md_img_dir : option string) (save : bool) :
  let run := process_epub_url env world url product_code md_img_dir save in
  let complete := ∃ chunks, http_get world url = Body chunks in
  (Temp_file (named_temp world) ∈ run.1
   ↔ complete ∨ ∃ chunks, http_get world url = Stream_raises chunks)
  ∧ (Unlink (named_temp world) ∈ run.1 ↔ complete)
  ∧ ((∃ ev, Core ev ∈ run.1) → complete)
  ∧ (is_Some run.2 → complete).
Proof.
  cbn zeta. unfold process_epub_url.
  assert (∀ p c (chunks : list string), Unlink p ∉ Temp_write c <$> chunks) as Hu.
  { intros p c chunks Hin. apply list_elem_of_fmap in Hin as (? & ? & ?). done. }
  assert (∀ ev c (chunks : list string), Core ev ∉ Temp_write c <$> chunks) as Hc.
  { intros ev c chunks Hin. apply list_elem_of_fmap in Hin as (? & ? & ?). done. }
  destruct (http_get world url) as [| |chunks|chunks]; cbn [fst snd].
  - split; [|split; [|split]].
    + split; [by intros ?%elem_of_nil|]. by intros [(? & ?)|(? & ?)].
    + split; [by intros ?%elem_of_nil|]. by intros (? & ?).
    + by intros (? & ?%elem_of_nil).
    + by intros [? ?].
  - split; [|split; [|split]].
    + split; [by intros ?%elem_of_nil|]. by intros [(? & ?)|(? & ?)].
    + split; [by intros ?%elem_of_nil|]. by intros (? & ?).
    + by intros (? & ?%elem_of_nil).
    + by intros [? ?].
  - split; [|split; [|split]].
    + split; [by right; eexists|]. intros _. left.
    + split; [|by intros (? & ?)]. intros Hin.
      apply elem_of_cons in Hin as [?|Hin]; [done|]. by apply Hu in Hin.
    + intros (ev & Hin). apply elem_of_cons in Hin as [?|Hin]; [done|].
      by apply Hc in Hin.
    + by intros [? ?].
  - split; [|split; [|split]].
    + split; [by left; eexists|]. intros _. left.
    + split; [by eexists|]. intros _. right.
      rewrite !elem_of_app. right; right. left.
    + intros _. by eexists.
    + intros _. by eexists.
Qed.

(** A readable book that has neither title nor author and yields no
    fragment converts to the empty text, and [main] reports that as a
    failure: when the output file can be written the text is returned and
    written, yet the exit status is 1, as it is when the file cannot be
    written. *)
Theorem main_fails_on_empty_text (args : Args) (path : string)
    (epub : gmap string string) (opf_dir : string) (opf_root : Element)
    (content_items image_items : list (option string * option string)) :
  args_src args = Some path →
  PosixPath.is_empty path = false →
  String.prefix "http://" path || String.prefix "https://" path = false →
  at_path world path = Zip epub →
  read_package epub = mret (opf_dir, opf_root) →
  collect_items (find (OPF +:+ "manifest") opf_root) = mret (content_items, image_items) →
  (args_save args = true → loop_running env = true) →
  metadata_text opf_root "title" = EmptyString →
  metadata_text opf_root "creator" = EmptyString →
  documents (spine_itemrefs opf_root) content_items = [] →
  let output := output_path env (args_product_code args) (args_save args) in
  (extract_content_from_epub env (args_product_code args) (args_save args) (Zip epub)
     (args_md_img_dir args)).2
  = (if can_open env output && can_write env output EmptyString
     then Some EmptyString else None)
  ∧ (main env world args).2 = Exit 1.
Proof.
  intros Hsrc Hne Hurl Hat Hp Hc Hloop Ht Ha Hd. cbn zeta.
  assert ((extract_content_from_epub env (args_product_code args) (args_save args)
             (Zip epub) (args_md_img_dir args)).2
          = if can_open env (output_path env (args_product_code args) (args_save args))
               && can_write env (output_path env (args_product_code args) (args_save args))
                    EmptyString
            then Some EmptyString else None) as Hres.
  { rewrite (extract_success env _ _ epub _ _ _ _ _ Hp Hc Hloop). by rewrite Ht, Ha, Hd. }
  split; [done|]. unfold main. rewrite Hsrc.
  change (default EmptyString (Some path)) with path.
  cbn [truthy]. rewrite Hne. cbn [negb andb]. rewrite Hurl, Hat.
  unfold report. cbn [fst snd]. rewrite Hres. by destruct (_ && _).
Qed.

End shell_facts.

Lemma main_persisting_never_succeeds_witness :
  let args := {| args_src := Some "book.epub"; args_file := None;
                 args_product_code := "p"; args_md_img_dir := None;
                 args_save := true |} in
  args_save args = true
  ∧ loop_running DemoShell.script_env = false
  ∧ (@main Demo.book_libs DemoShell.script_env DemoShell.world args).2 = Exit 1.
Proof.
  cbn zeta. split; [reflexivity|]. split; [reflexivity|].
  destruct (@main_persisting_never_succeeds Demo.book_libs DemoShell.script_env
              DemoShell.world
              {| args_src := Some "book.epub"; args_file := None;
                 args_product_code := "p"; args_md_img_dir := None;
                 args_save := true |} eq_refl eq_refl) as [He|Hu].
  - exact He.
  - vm_compute in Hu. discriminate.
Defined.

Lemma main_fails_on_empty_text_witness :
  let args := {| args_src := Some "book.epub"; args_file := None;
                 args_product_code := "p"; args_md_img_dir := None;
                 args_save := false |} in
  @read_package DemoShell.blank_libs Demo.book = mret ("OEBPS/", DemoShell.blank_opf)
  ∧ collect_items (ElementTree.find (OPF +:+ "manifest") DemoShell.blank_opf)
    = mret ([], [(Some "i2", Some "b/dot.png")])
  ∧ (@main DemoShell.blank_libs Demo.env DemoShell.world args).2 = Exit 1.
Proof.
  cbn zeta.
  assert (@read_package DemoShell.blank_libs Demo.book
          = mret ("OEBPS/", DemoShell.blank_opf)) as Hp by (vm_compute; reflexivity).
  assert (collect_items (ElementTree.find (OPF +:+ "manifest") DemoShell.blank_opf)
          = mret ([], [(Some "i2", Some "b/dot.png")])) as Hc by (vm_compute; reflexivity).
  split; [exact Hp|]. split; [exact Hc|].
  refine (proj2 (@main_fails_on_empty_text DemoShell.blank_libs Demo.env DemoShell.world
                   {| args_src := Some "book.epub"; args_file := None;
                      args_product_code := "p"; args_md_img_dir := None;
                      args_save := false |}
                   "book.epub" Demo.book _ _ _ _ eq_refl eq_refl eq_refl eq_refl Hp Hc
                   _ eq_refl eq_refl eq_refl)).
  intros _. reflexivity.
Defined.

(** ** The helpers *)

Section product_id_facts.
Import PosixPath Helpers.

Lemma length_take n s : n ≤ String.length s → String.length (take n s) = n.
Proof.
  revert n; induction s as [|a t IH]; intros [|n]; simpl; try lia.
  intros Hn. rewrite IH; lia.
Qed.

Lemma take_add n m s : take (n + m) s = take n s +:+ take m (drop n s).
Proof.
  revert n; induction s as [|a t IH]; intros [|n]; try done.
  - by destruct m.
  - simpl. by rewrite IH.
Qed.

Lemma drop_add n m s : drop (n + m) s = drop m (drop n s).
Proof.
  revert n; induction s as [|a t IH]; intros [|n]; try done.
  - by destruct m.
  - simpl. by rewrite IH.
Qed.

Lemma length_drop n s : String.length (drop n s) = String.length s - n.
Proof. revert n; induction s as [|a t IH]; intros [|n]; simpl; try done. Qed.

Lemma drop_take_append n s r :
  n ≤ String.length s → drop n (take n s +:+ r) = r.
Proof.
  intros Hn. rewrite <- (length_take n s Hn) at 1. apply drop_append.
Qed.

Lemma take_all s : take (String.length s) s = s.
Proof. induction s as [|a t IH]; [done|]. simpl. by rewrite IH. Qed.

Lemma append_nil_r s : s +:+ EmptyString = s.
Proof. induction s as [|a t IH]; [done|]. by rewrite append_String, IH. Qed.

Lemma append_assoc a b c : (a +:+ b) +:+ c = a +:+ b +:+ c.
Proof. induction a as [|x a IH]; [done|]. by rewrite !append_String, IH. Qed.

Section with_digits.
Variable digit_len : string → nat.
Hypothesis digit_len_le : ∀ s, digit_len s ≤ String.length s.
Hypothesis digit_len_own :
  ∀ s r, 0 < digit_len s → digit_len (take (digit_len s) s +:+ r) = digit_len s.

Lemma digits_len_own k :
  ∀ s n, digits_len digit_len k s = Some n →
         n ≤ String.length s ∧ ∀ r, digits_len digit_len k (take n s +:+ r) = Some n.
Proof.
  induction k as [|k IH]; intros s n.
  - intros [= <-]. split; [lia|]. intros r. done.
  - cbn [digits_len]. destruct (digit_len s =? 0) eqn:E0; [done|].
    apply Nat.eqb_neq in E0.
    destruct (digits_len digit_len k (drop (digit_len s) s)) as [m|] eqn:Ek; [|done].
    intros [= <-]. destruct (IH _ _ Ek) as [Hm Hown].
    pose proof (digit_len_le s) as Hle. rewrite length_drop in Hm.
    split; [lia|]. intros r.
    rewrite take_add, append_assoc, digit_len_own by lia.
    rewrite (proj2 (Nat.eqb_neq _ _) E0).
    rewrite drop_take_append by done. by rewrite Hown.
Qed.

(** The product id found in a file name is the start of the name, and it
    is found again, whole, in itself. *)
Theorem product_id_is_prefix_and_fixed (filename code : string) :
  get_product_id digit_len filename = Some code →
  (∃ rest, filename = code +:+ rest)
  ∧ get_product_id digit_len code = Some code.
Proof.
  unfold get_product_id.
  destruct (digits_len digit_len 6 filename) as [n1|] eqn:E1; [|done]. cbn [mbind option_bind].
  destruct (startswith "-" (drop n1 filename)) eqn:Es; [|done].
  destruct (digits_len digit_len 2 (drop 1 (drop n1 filename))) as [n2|] eqn:E2; [|done].
  cbn [mbind option_bind]. intros [= <-]. split.
  { exists (drop (n1 + 1 + n2) filename). by rewrite take_drop. }
  destruct (digits_len_own 6 _ _ E1) as [Hn1 Hown1].
  destruct (digits_len_own 2 _ _ E2) as [Hn2 Hown2].
  rewrite !length_drop in Hn2.
  destruct (drop n1 filename) as [|a rest] eqn:Ed; [done|].
  simpl in Es. apply bool_decide_eq_true in Es as ->.
  change (drop 1 (String "-" rest)) with rest in *.
  assert (take (n1 + 1 + n2) filename = take n1 filename +:+ String "-" (take n2 rest))
    as Hcode.
  { rewrite <- Nat.add_assoc, take_add, Ed. done. }
  rewrite Hcode, Hown1. cbn [mbind option_bind].
  rewrite drop_take_append by done. cbn [startswith].
  rewrite bool_decide_eq_true_2 by done.
  change (drop 1 (String "-" (take n2 rest))) with (take n2 rest).
  rewrite <- (append_nil_r (take n2 rest)) at 1. rewrite Hown2. cbn [mbind option_bind].
  f_equal.
  assert (String.length (take n1 filename +:+ String "-" (take n2 rest)) = n1 + 1 + n2)
    as Hlen.
  { rewrite length_append. simpl. rewrite !length_take; [lia| |done].
    apply (f_equal String.length) in Ed. rewrite length_drop in Ed. simpl in Ed. lia. }
  rewrite <- Hlen at 1. apply take_all.
Qed.

(** ASCII digits are decimal digits, and the other ASCII characters are
    not. *)
Hypothesis digit_len_ascii :
  ∀ a t, nat_of_ascii a < 128 →
         digit_len (String a t) = if ascii_digit a then 1 else 0.

(** A name that starts with six ASCII digits, a hyphen and two ASCII
    digits has these nine characters as its product id; the empty name and
    a name that starts with another ASCII character have none. *)
Theorem product_id_of_ascii_name (d1 d2 d3 d4 d5 d6 d7 d8 a : ascii) (rest : string) :
  (Forall (λ d, ascii_digit d = true) [d1; d2; d3; d4; d5; d6; d7; d8] →
   get_product_id digit_len
     (String d1 (String d2 (String d3 (String d4 (String d5 (String d6
        (String "-" (String d7 (String d8 rest)))))))))
   = Some (String d1 (String d2 (String d3 (String d4 (String d5 (String d6
        (String "-" (String d7 (String d8 EmptyString))))))))))
  ∧ get_product_id digit_len EmptyString = None
  ∧ (nat_of_ascii a < 128 → ascii_digit a = false →
     get_product_id digit_len (String a rest) = None).
Proof.
  assert (∀ d t, ascii_digit d = true → digit_len (String d t) = 1) as Hd.
  { intros d t Hdig. rewrite digit_len_ascii, Hdig; [done|].
    unfold ascii_digit in Hdig. apply andb_true_iff in Hdig as [_ Hdig].
    apply Nat.leb_le in Hdig. lia. }
  split; [|split].
  - intros Hall. repeat (apply Forall_cons in Hall as [? Hall]).
    unfold get_product_id. cbn [digits_len].
    repeat (rewrite Hd by done; simpl).
    rewrite ?bool_decide_eq_true_2 by done.
    repeat (rewrite Hd by done; simpl).
    done.
  - unfold get_product_id. cbn [digits_len].
    pose proof (digit_len_le EmptyString) as Hle. simpl in Hle.
    by replace (digit_len EmptyString) with 0 by lia.
  - intros Ha Hnd. unfold get_product_id. cbn [digits_len].
    by rewrite digit_len_ascii, Hnd.
Qed.

End with_digits.
End product_id_facts.

Lemma demo_digit_len_le s : DemoHelpers.digit_len s ≤ String.length s.
Proof. destruct s as [|a t]; simpl; [lia|]. destruct (Helpers.ascii_digit a); lia. Qed.

Lemma demo_digit_len_own s r :
  0 < DemoHelpers.digit_len s →
  DemoHelpers.digit_len (PosixPath.take (DemoHelpers.digit_len s) s +:+ r)
  = DemoHelpers.digit_len s.
Proof.
  destruct s as [|a t]; simpl; [lia|].
  destruct (Helpers.ascii_digit a) eqn:E; [|lia]. intros _. simpl. by rewrite E.
Qed.

Lemma demo_digit_len_ascii a t :
  nat_of_ascii a < 128 →
  DemoHelpers.digit_len (String a t) = if Helpers.ascii_digit a then 1 else 0.
Proof. done. Qed.

Lemma product_id_is_prefix_and_fixed_witness :
  Helpers.get_product_id DemoHelpers.digit_len "100227-01_book.epub" = Some "100227-01"
  ∧ (∃ rest, "100227-01_book.epub" = "100227-01" +:+ rest)
  ∧ Helpers.get_product_id DemoHelpers.digit_len "100227-01" = Some "100227-01".
Proof.
  assert (Helpers.get_product_id DemoHelpers.digit_len "100227-01_book.epub"
          = Some "100227-01") as Hid by (vm_compute; reflexivity).
  split; [exact Hid|].
  exact (product_id_is_prefix_and_fixed DemoHelpers.digit_len demo_digit_len_le
           demo_digit_len_own "100227-01_book.epub" "100227-01" Hid).
Defined.

Lemma product_id_of_ascii_name_witness :
  Forall (λ d, Helpers.ascii_digit d = true)
    ["1"; "0"; "0"; "2"; "2"; "7"; "0"; "1"]%char
  ∧ Helpers.get_product_id DemoHelpers.digit_len "100227-01.epub" = Some "100227-01"
  ∧ Helpers.get_product_id DemoHelpers.digit_len "book.epub" = None.
Proof.
  assert (Forall (λ d, Helpers.ascii_digit d = true)
            ["1"; "0"; "0"; "2"; "2"; "7"; "0"; "1"]%char) as Hall
    by (repeat constructor).
  pose proof (product_id_of_ascii_name DemoHelpers.digit_len demo_digit_len_le
                demo_digit_len_ascii "1" "0" "0" "2" "2" "7" "0" "1" "b" ".epub")
    as (Hsome & _ & _).
  pose proof (product_id_of_ascii_name DemoHelpers.digit_len demo_digit_len_le
                demo_digit_len_ascii "1" "0" "0" "2" "2" "7" "0" "1" "b" "ook.epub")
    as (_ & _ & Hnone).
  split; [exact Hall|]. split; [exact (Hsome Hall)|].
  apply Hnone; [vm_compute; lia|vm_compute; reflexivity].
Defined.

Section first_line_facts.
Import PosixPath Re Helpers.

Lemma sub_mark_no_mark s a :
  is_mark a = true → has_char a (sub mark s) = false.
Proof.
  intros Ha. unfold sub. induction s as [|x t IH]; [done|].
  cbn [sub_from mark]. destruct (is_mark x) eqn:Ex.
  - cbn [Init.Nat.pred]. by rewrite append_Empty.
  - cbn [has_char]. rewrite IH, orb_false_r.
    apply bool_decide_eq_false. intros ->. congruence.
Qed.

(** Whatever the file holds, the first-line content is never the empty
    string and never has a backquote, an asterisk or an underscore in it;
    a file that cannot be read has none. *)
Theorem first_line_content_is_clean (text_at : string → option string)
    (markdown_path content : string) :
  (get_first_line_content text_at markdown_path = Some content →
   content ≠ EmptyString
   ∧ has_char "`" content = false
   ∧ has_char "*" content = false
   ∧ has_char "_" content = false)
  ∧ (text_at markdown_path = None → get_first_line_content text_at markdown_path = None).
Proof.
  unfold get_first_line_content. split; [|by intros ->].
  destruct (text_at markdown_path) as [text|]; [|done].
  unfold first_line_content.
  destruct (is_empty (sub mark (strip_heading (strip (readline text))))) eqn:E; [done|].
  intros [= <-]. split; [by intros Heq; rewrite Heq in E|].
  repeat split; by apply sub_mark_no_mark.
Qed.

Lemma join_lines_cons x l :
  join_lines (x :: l) = x +:+ match l with [] => EmptyString | _ => NL +:+ join_lines l end.
Proof. destruct l; [|done]. simpl. by rewrite append_nil_r. Qed.

Lemma readline_line a b :
  has_char LF a = false → has_char CR a = false →
  readline (a +:+ String LF b) = a +:+ NL.
Proof.
  induction a as [|x a IH]; intros Hlf Hcr.
  - by rewrite !append_Empty.
  - rewrite !append_String. simpl in *.
    apply orb_false_iff in Hlf as [-> Hlf]. apply orb_false_iff in Hcr as [-> Hcr].
    simpl. by rewrite IH.
Qed.

Lemma space_len_space t : space_len (String " " t) = 1.
Proof. done. Qed.

Lemma space_len_hash t : space_len (String "#" t) = 0.
Proof. by destruct t as [|a1 [|a2 t2]]. Qed.

Lemma spaces_len_space n t : spaces_len (S n) (String " " t) = S (spaces_len n t).
Proof. done. Qed.

Lemma spaces_len_hash n t : spaces_len n (String "#" t) = 0.
Proof. destruct n; [done|]. cbn [spaces_len]. by rewrite space_len_hash. Qed.

Lemma lstrip_fixed s :
  s ≠ EmptyString → lstrip s = s → spaces_len (String.length s) s = 0.
Proof.
  unfold lstrip. intros Hne Hs. apply (f_equal String.length) in Hs.
  rewrite length_drop in Hs.
  assert (0 < String.length s) by (destruct s; [done|simpl; lia]). lia.
Qed.

(** The first line of a converted book reads back as its title.  When
    the title is not empty, has no line break in it and no white space at
    either end, the first-line content of the text assembled by the
    converter is the title without its backquotes, asterisks and
    underscores ([None] when nothing else is in the title). *)
Theorem first_line_of_converted_book (title author : string) (fragments : list string) :
  title ≠ EmptyString →
  has_char LF title = false → has_char CR title = false →
  lstrip title = title → rstrip (title +:+ NL) = title →
  first_line_content (join_lines (header title author ++ fragments))
  = if is_empty (sub mark title) then None else Some (sub mark title).
Proof.
  intros Hne Hlf Hcr Hl Hr. unfold header.
  destruct (is_empty title) eqn:Et; [by destruct title|].
  cbn [app]. rewrite join_lines_cons.
  set (rest := match _ with [] => EmptyString | _ => _ end).
  change ("# " +:+ title +:+ NL) with (String "#" (String " " (title +:+ NL))).
  rewrite !append_String.
  assert (readline (String "#" (String " " ((title +:+ NL) +:+ rest)))
          = String "#" (String " " (title +:+ NL))) as Hline.
  { cbn [readline]. rewrite !bool_decide_eq_false_2 by done. cbn [orb]. do 2 f_equal.
    unfold NL at 1. rewrite append_assoc, append_String, append_Empty.
    by apply readline_line. }
  unfold first_line_content. rewrite Hline.
  assert (all_space (title +:+ NL) = false) as Hns.
  { destruct (all_space (title +:+ NL)) eqn:Ea; [|done].
    destruct title as [|a t]; [done|]. rewrite append_String in Hr, Ea.
    cbn [rstrip] in Hr. by rewrite Ea in Hr. }
  assert (rstrip (String "#" (String " " (title +:+ NL))) = String "#" (String " " title))
    as Hrs.
  { assert (all_space (String "#" (String " " (title +:+ NL))) = false) as H1.
    { unfold all_space. by rewrite spaces_len_hash. }
    assert (all_space (String " " (title +:+ NL)) = false) as H2.
    { unfold all_space in *. cbn [String.length]. rewrite spaces_len_space.
      apply Nat.eqb_neq. apply Nat.eqb_neq in Hns. lia. }
    cbn [rstrip]. by rewrite H1, H2, Hr. }
  unfold strip. rewrite Hrs.
  assert (lstrip (String "#" (String " " title)) = String "#" (String " " title)) as ->.
  { unfold lstrip. by rewrite spaces_len_hash. }
  unfold strip_heading.
  assert (span_len is_hash (String "#" (String " " title)) = 1) as -> by done.
  cbn [Nat.leb drop]. unfold lstrip. cbn [String.length]. rewrite spaces_len_space.
  rewrite (lstrip_fixed title Hne Hl). done.
Qed.

End first_line_facts.

Lemma first_line_content_is_clean_witness :
  let text_at path :=
    if decide (path = "p.md") then Some ("## *T* " +:+ Re.NL +:+ "x") else None in
  Helpers.get_first_line_content text_at "p.md" = Some "T"
  ∧ "T" ≠ EmptyString
  ∧ Helpers.get_first_line_content text_at "q.md" = None.
Proof.
  cbn zeta.
  set (text_at := λ path : string,
         if decide (path = "p.md") then Some ("## *T* " +:+ Re.NL +:+ "x") else None).
  assert (Helpers.get_first_line_content text_at "p.md" = Some "T") as Hc
    by (vm_compute; reflexivity).
  assert (text_at "q.md" = None) as Hn by (vm_compute; reflexivity).
  destruct (first_line_content_is_clean text_at "p.md" "T") as [Hclean _].
  destruct (first_line_content_is_clean text_at "q.md" "T") as [_ Hnone].
  split; [exact Hc|]. split; [exact (proj1 (Hclean Hc))|exact (Hnone Hn)].
Defined.

Lemma first_line_of_converted_book_witness :
  "War *and* Peace" ≠ EmptyString
  ∧ Helpers.lstrip "War *and* Peace" = "War *and* Peace"
  ∧ Helpers.rstrip ("War *and* Peace" +:+ Re.NL) = "War *and* Peace"
  ∧ Helpers.first_line_content
      (join_lines (header "War *and* Peace" "Tolstoy" ++ ["chapter"]))
    = Some "War and Peace".
Proof.
  assert ("War *and* Peace" ≠ EmptyString) as Hne by discriminate.
  assert (Helpers.lstrip "War *and* Peace" = "War *and* Peace") as Hl
    by (vm_compute; reflexivity).
  assert (Helpers.rstrip ("War *and* Peace" +:+ Re.NL) = "War *and* Peace") as Hr
    by (vm_compute; reflexivity).
  split; [exact Hne|]. split; [exact Hl|]. split; [exact Hr|].
  exact (first_line_of_converted_book "War *and* Peace" "Tolstoy" ["chapter"] Hne
           eq_refl eq_refl Hl Hr).
Defined.

(** ** The upload task *)

Section upload_facts.
Import Upload.
Variable answer : oracle.
Variables product_code data_dir : string.

Let product_dir : string := PosixPath.join data_dir product_code.
Let run : list call * option bool := upload_to_oss answer product_code data_dir [].
Let prelude : list call :=
  [Update_task_status DOING; New_uploader; Path_exists product_dir].

Ltac run_cases :=
  subst run product_dir;
  unfold upload_to_oss, try_except, try_finally, bind, ret, ask;
  repeat (match goal with
          | |- context [answer ?h ?c] =>
              let E := fresh "E" in destruct (answer h c) as [[]|] eqn:E
          end; cbn [negb app fst snd]);
  cbn [app] in *.

(** When the task returns, the status it wrote last is SUCCESS for True
    and FAIL for False. *)
Theorem upload_status_agrees_with_result (b : bool) :
  run.2 = Some b →
  last_status run.1 = Some (if b then SUCCESS else FAIL).
Proof.
  revert b. run_cases; intros b [= <-]; reflexivity.
Qed.

(** Local files are deleted only right after an upload of the same
    directory that answered True. *)
Theorem local_files_deleted_after_upload (path : string) :
  Delete_local_files path ∈ run.1 →
  path = product_dir ∧
  ∃ before after,
    run.1 = before ++ Upload_directory path :: Delete_local_files path :: after ∧
    answer before (Upload_directory path) = Some true.
Proof.
  run_cases; intros Hin;
    repeat (apply elem_of_cons in Hin as [Hin|Hin]; [try discriminate Hin|]);
    try (by apply elem_of_nil in Hin);
    injection Hin as ->; (split; [reflexivity|]);
    match goal with
    | E : answer ?h (Upload_directory _) = Some true |- _ =>
        exists h; eexists; split; [reflexivity | exact E]
    end.
Qed.

(** The lock is released exactly in the runs that reach the upload, whether
    or not the lock was obtained. *)
Theorem lock_released_iff_upload_attempted :
  Release_file_lock ∈ run.1 ↔ Upload_directory product_dir ∈ run.1.
Proof.
  run_cases; split; intros Hin;
    repeat (apply elem_of_cons in Hin as [Hin|Hin]; [try discriminate Hin|]);
    try (by apply elem_of_nil in Hin);
    rewrite !elem_of_cons; tauto.
Qed.

(** When no lock is obtained but the running tasks finish in time, the
    directory is uploaded all the same and the lock, which is not held, is
    released afterwards. *)
Theorem upload_goes_on_without_lock :
  answer [] (Update_task_status DOING) ≠ None →
  answer [Update_task_status DOING] New_uploader ≠ None →
  answer [Update_task_status DOING; New_uploader] (Path_exists product_dir) = Some true →
  answer prelude Acquire_file_lock = Some false →
  answer (prelude ++ [Acquire_file_lock]) Wait_for_tasks_completion = Some true →
  ∃ rest,
    run.1 = prelude ++ Acquire_file_lock :: Wait_for_tasks_completion
                    :: Upload_directory product_dir :: rest ∧
    Release_file_lock ∈ rest.
Proof.
  subst prelude. cbn [app].
  run_cases; intros H1 H2 H3 H4 H5; try congruence;
    eexists; (split; [reflexivity|]); rewrite !elem_of_cons; tauto.
Qed.

(** A run in which the lock cannot be released never returns True, even
    when the upload was completed. *)
Theorem release_failure_is_no_success :
  (∀ h, answer h Release_file_lock = None) →
  run.2 ≠ Some true.
Proof.
  intros Hrel. revert Hrel.
  run_cases; intros Hrel; try discriminate;
    match goal with
    | E : answer ?h Release_file_lock = Some _ |- _ =>
        rewrite Hrel in E; discriminate E
    end.
Qed.

(** A run that returns True has uploaded the directory, deleted the local
    files, written SUCCESS and released the lock, in this order and as its
    last four calls, and has written FAIL nowhere. *)
Theorem upload_success_trace :
  run.2 = Some true →
  (Update_task_status FAIL ∉ run.1) ∧
  ∃ before,
    run.1 = before ++ [Upload_directory product_dir; Delete_local_files product_dir;
                       Update_task_status SUCCESS; Release_file_lock] ∧
    answer before (Upload_directory product_dir) = Some true.
Proof.
  run_cases; intros [=]; (split;
    [ intros Hin;
      repeat (apply elem_of_cons in Hin as [Hin|Hin]; [try discriminate Hin|]);
      by apply elem_of_nil in Hin
    | match goal with
      | E : answer ?h (Upload_directory _) = Some true |- _ =>
          exists h; split; [reflexivity | exact E]
      end ]).
Qed.

End upload_facts.

Lemma upload_status_agrees_with_result_witness :
  (Upload.upload_to_oss DemoUpload.refused "b1" "data" []).2 = Some false ∧
  Upload.last_status (Upload.upload_to_oss DemoUpload.refused "b1" "data" []).1
  = Some Upload.FAIL.
Proof.
  assert (H : (Upload.upload_to_oss DemoUpload.refused "b1" "data" []).2 = Some false)
    by (vm_compute; reflexivity).
  split; [exact H|].
  exact (upload_status_agrees_with_result DemoUpload.refused "b1" "data" false H).
Defined.

Lemma local_files_deleted_after_upload_witness :
  Upload.Delete_local_files "data/b1"
    ∈ (Upload.upload_to_oss DemoUpload.unlocked "b1" "data" []).1 ∧
  ∃ before after,
    (Upload.upload_to_oss DemoUpload.unlocked "b1" "data" []).1
    = before ++ Upload.Upload_directory "data/b1"
             :: Upload.Delete_local_files "data/b1" :: after ∧
    DemoUpload.unlocked before (Upload.Upload_directory "data/b1") = Some true.
Proof.
  assert (H : Upload.Delete_local_files "data/b1"
                ∈ (Upload.upload_to_oss DemoUpload.unlocked "b1" "data" []).1)
    by (apply (list_elem_of_lookup_2 _ 6); reflexivity).
  split; [exact H|].
  exact (proj2 (local_files_deleted_after_upload DemoUpload.unlocked "b1" "data" _ H)).
Defined.

Lemma upload_goes_on_without_lock_witness :
  DemoUpload.unlocked
    [Upload.Update_task_status Upload.DOING; Upload.New_uploader;
     Upload.Path_exists "data/b1"] Upload.Acquire_file_lock = Some false ∧
  ∃ rest,
    (Upload.upload_to_oss DemoUpload.unlocked "b1" "data" []).1
    = [Upload.Update_task_status Upload.DOING; Upload.New_uploader;
       Upload.Path_exists "data/b1"]
      ++ Upload.Acquire_file_lock :: Upload.Wait_for_tasks_completion
      :: Upload.Upload_directory "data/b1" :: rest ∧
    Upload.Release_file_lock ∈ rest.
Proof.
  split; [reflexivity|].
  exact (upload_goes_on_without_lock DemoUpload.unlocked "b1" "data"
           ltac:(discriminate) ltac:(discriminate) eq_refl eq_refl eq_refl).
Defined.

Lemma release_failure_is_no_success_witness :
  (∀ h, DemoUpload.stuck_lock h Upload.Release_file_lock = None) ∧
  (Upload.upload_to_oss DemoUpload.stuck_lock "b1" "data" []).2 ≠ Some true.
Proof.
  assert (H : ∀ h, DemoUpload.stuck_lock h Upload.Release_file_lock = None)
    by (intros h; reflexivity).
  split; [exact H|].
  exact (release_failure_is_no_success DemoUpload.stuck_lock "b1" "data" H).
Defined.

Lemma upload_success_trace_witness :
  (Upload.upload_to_oss DemoUpload.unlocked "b1" "data" []).2 = Some true ∧
  Upload.Update_task_status Upload.FAIL
    ∉ (Upload.upload_to_oss DemoUpload.unlocked "b1" "data" []).1.
Proof.
  assert (H : (Upload.upload_to_oss DemoUpload.unlocked "b1" "data" []).2 = Some true)
    by (vm_compute; reflexivity).
  split; [exact H|].
  exact (proj1 (upload_success_trace DemoUpload.unlocked "b1" "data" H)).
Defined.

(** A completed upload whose lock cannot be released: the local files are
    gone, SUCCESS was written, and the task ends with FAIL and False. *)
Example upload_with_stuck_lock :
  Upload.upload_to_oss DemoUpload.stuck_lock "b1" "data" []
  = ([Upload.Update_task_status Upload.DOING; Upload.New_uploader;
      Upload.Path_exists "data/b1"; Upload.Acquire_file_lock;
      Upload.Upload_directory "data/b1"; Upload.Delete_local_files "data/b1";
      Upload.Update_task_status Upload.SUCCESS; Upload.Release_file_lock;
      Upload.Update_task_status Upload.FAIL],
     Some false).
Proof. vm_compute. reflexivity. Qed.

(** ** Runs of the demonstration books *)

Lemma persisting_run_without_loop_witness :
  loop_running DemoShell.script_env = false
  ∧ (@extract_content_from_epub Demo.book_libs DemoShell.script_env "p" true
       (Zip Demo.book) None).2 = None.
Proof.
  assert (H : loop_running DemoShell.script_env = false) by reflexivity.
  split; [exact H|].
  exact (proj1 (@persisting_run_without_loop Demo.book_libs DemoShell.script_env "p"
                  (Zip Demo.book) None H)).
Defined.

Lemma failure_before_or_at_output_witness :
  let result :=
    @extract_content_from_epub Demo.book_libs DemoMore.crowded_env "p" false
      (Zip Demo.book) None in
  result.2 = None
  ∧ (Write "/tmp/tmpq/images/i1.png" "PNG-A") ∈ result.1
  ∧ (Open_w "/tmp/tmpq/p.epub.md") ∈ result.1.
Proof.
  cbn zeta.
  assert (H1 : false = true → loop_running DemoMore.crowded_env = true) by discriminate.
  assert (H2 : (@extract_content_from_epub Demo.book_libs DemoMore.crowded_env "p" false
                  (Zip Demo.book) None).2 = None) by (vm_compute; reflexivity).
  split; [exact H2|].
  destruct (@failure_before_or_at_output Demo.book_libs DemoMore.crowded_env "p" false
              (Zip Demo.book) None H1 H2)
    as [[Hprep _]|(epub & d & r & c & i & Hsrc & Hp & Hc & _ & Heff)].
  - vm_compute in Hprep. discriminate Hprep.
  - injection Hsrc as <-.
    assert (@read_package Demo.book_libs Demo.book = mret ("OEBPS/", Demo.book_opf))
      as Hp' by (vm_compute; reflexivity).
    rewrite Hp' in Hp. injection Hp as <- <-.
    assert (collect_items (ElementTree.find (OPF +:+ "manifest") Demo.book_opf)
            = mret ([(Some "c1", Some "one.xhtml"); (Some "c2", Some "two.xhtml")],
                    [(Some "i1", Some "a/pic.png"); (Some "i2", Some "b/pic.png")]))
      as Hc' by (vm_compute; reflexivity).
    rewrite Hc' in Hc. injection Hc as <- <-.
    rewrite Heff. split.
    + apply (list_elem_of_lookup_2 _ 4). vm_compute. reflexivity.
    + apply (list_elem_of_lookup_2 _ 7). vm_compute. reflexivity.
Defined.
